(** * Smart Mouse Trap: node and gateway firmware

    A shallow embedding of the two firmware sketches of the repository,
    [trap-node.ino] (battery powered sensor node) and [gateway.ino] (the
    ESP-NOW to MQTT bridge), together with the properties the design
    document states about them.

    Conventions.
    - [uint8_t], [uint32_t] and [unsigned long] values are integers of [Z]
      with the wrap-around of the C arithmetic written out ([wrap32]).
    - The radio frame is the memory image of the C struct [TrapMessage]:
      a list of bytes, laid out as the 32-bit little-endian targets of the
      sketches lay it out (see [Codec]).
    - Time is a millisecond clock; [delay d] advances it by [d], nothing
      else takes time, and [millis()] reads the clock modulo 2^32.
    - Whatever the sketches obtain from the outside (ADC readings, the reed
      line, results of radio and broker calls) is an explicit input. *)

From Stdlib Require Import ZArith List String Ascii Bool Lia QArith.
From Stdlib Require Import Strings.Byte Numbers.DecimalString Sorting.Sorted.
Import ListNotations.

Local Open Scope Z_scope.

(** ** Machine integers *)

Definition wrap32 (z : Z) : Z := z mod 2 ^ 32.

Definition is_u8 (z : Z) : Prop := 0 <= z < 2 ^ 8.
Definition is_u32 (z : Z) : Prop := 0 <= z < 2 ^ 32.

(** [a - b] on [unsigned long], as in [millis() - startTime]. *)
Definition elapsed32 (now since : Z) : Z := wrap32 (now - since).

(** ** Bytes *)

Definition byte_of_Z (z : Z) : byte :=
  match Byte.of_N (Z.to_N (z mod 256)) with
  | Some b => b
  | None => Byte.x00
  end.

Definition Z_of_byte (b : byte) : Z := Z.of_N (Byte.to_N b).

(** Little-endian image of a 32-bit word, and its inverse. *)
Definition le32 (z : Z) : list byte :=
  [ byte_of_Z z; byte_of_Z (z / 2 ^ 8); byte_of_Z (z / 2 ^ 16);
    byte_of_Z (z / 2 ^ 24) ].

Definition un_le32 (b0 b1 b2 b3 : byte) : Z :=
  Z_of_byte b0 + 2 ^ 8 * Z_of_byte b1 + 2 ^ 16 * Z_of_byte b2
  + 2 ^ 24 * Z_of_byte b3.

(** ** The event message and its frame *)

Module Codec.

(** [float] members are carried as their IEEE-754 binary32 bit pattern:
    the sketches only copy them, byte for byte. *)
Definition float32 : Type := Z.

(** [typedef struct { ... } TrapMessage;] -- the same declaration in both
    sketches.  The type of the [float] member is a parameter: the gateway
    handles the bit pattern taken from the frame, the node the voltage it
    computed. *)
Record TrapMessage (F : Type) : Type := mkTrapMessage {
  node_id : Z;          (* uint8_t *)
  event_type : Z;       (* uint8_t, 0=status, 1=trigger, 2=low_battery *)
  trap_count : Z;       (* uint32_t *)
  battery_voltage : F;  (* float *)
  route_hops : Z;       (* uint8_t *)
  timestamp : Z         (* uint32_t *)
}.
Arguments mkTrapMessage {F}.
Arguments node_id {F}.
Arguments event_type {F}.
Arguments trap_count {F}.
Arguments battery_voltage {F}.
Arguments route_hops {F}.
Arguments timestamp {F}.

(** The values of [event_type], as the comments of the sketches name
    them. *)
Definition STATUS : Z := 0.
Definition TRIGGER : Z := 1.
Definition LOW_BATTERY : Z := 2.

(** Every member holds a value of its C type. *)
Definition well_typed (m : TrapMessage float32) : Prop :=
  is_u8 (node_id m) /\ is_u8 (event_type m) /\ is_u32 (trap_count m) /\
  is_u32 (battery_voltage m) /\ is_u8 (route_hops m) /\
  is_u32 (timestamp m).

(** [sizeof(TrapMessage)]: members at offsets 0, 1, 4, 8, 12 and 16, the
    32-bit members aligned on 4 bytes. *)
Definition sizeof_TrapMessage : Z := 20.

(** The five bytes of the struct that belong to no member.  The node never
    writes them, so a frame carries whatever they held. *)
Record Padding : Type := mkPadding {
  pad2 : byte; pad3 : byte; pad13 : byte; pad14 : byte; pad15 : byte
}.

(** The memory image of [msg], [sizeof(msg)] bytes from its address: what
    the node hands to [esp_now_send]. *)
Definition encode (p : Padding) (m : TrapMessage float32) : list byte :=
  [ byte_of_Z (node_id m); byte_of_Z (event_type m); pad2 p; pad3 p ]
  ++ le32 (trap_count m)
  ++ le32 (battery_voltage m)
  ++ [ byte_of_Z (route_hops m); pad13 p; pad14 p; pad15 p ]
  ++ le32 (timestamp m).

(** [memcpy(&msg, data, sizeof(msg))] followed by the member reads. *)
Definition memcpy_msg (data : list byte) : TrapMessage float32 :=
  let b (i : nat) := nth i data Byte.x00 in
  {| node_id := Z_of_byte (b 0%nat);
     event_type := Z_of_byte (b 1%nat);
     trap_count := un_le32 (b 4%nat) (b 5%nat) (b 6%nat) (b 7%nat);
     battery_voltage := un_le32 (b 8%nat) (b 9%nat) (b 10%nat) (b 11%nat);
     route_hops := Z_of_byte (b 12%nat);
     timestamp := un_le32 (b 16%nat) (b 17%nat) (b 18%nat) (b 19%nat) |}.

(** The length check of [onDataReceive] and the copy it guards. *)
Definition decode (data : list byte) : option (TrapMessage float32) :=
  if Z.of_nat (List.length data) =? sizeof_TrapMessage
  then Some (memcpy_msg data)
  else None.

(** The bytes of a frame that belong to no member. *)
Definition padding_of (data : list byte) : Padding :=
  let b (i : nat) := nth i data Byte.x00 in
  mkPadding (b 2%nat) (b 3%nat) (b 13%nat) (b 14%nat) (b 15%nat).

End Codec.

(** ** The sensor node ([trap-node.ino]) *)

Module Node.
Import Codec.

(** *** Configuration *)

Definition NODE_ID : Z := 1.
Definition SLEEP_DURATION_SEC : Z := 300.
Definition BATTERY_CHECK_INTERVAL : Z := 10.
Definition LOW_BATTERY_THRESHOLD : Q := 33 # 10.
Definition DEBOUNCE_MS : Z := 50.
Definition TRIGGER_STABLE_MS : Z := 200.
(** The literal bound of the confirmation wait in [sendMessage]. *)
Definition SEND_WAIT_MS : Z := 1000.

(** *** State *)

(** Level of a digital input. *)
Inductive Level : Type := LOW | HIGH.

Definition Level_eqb (a b : Level) : bool :=
  match a, b with
  | LOW, LOW | HIGH, HIGH => true
  | _, _ => false
  end.

(** The [RTC_DATA_ATTR] variables: the only memory a deep sleep keeps. *)
Record Rtc : Type := mkRtc {
  trapCount : Z;        (* uint32_t *)
  wakeCount : Z;        (* uint32_t *)
  lastTriggerTime : Z   (* uint32_t *)
}.

(** Their initialisers, in force after a cold power-on. *)
Definition power_on : Rtc :=
  {| trapCount := 0; wakeCount := 0; lastTriggerTime := 0 |}.

(** The three globals of the reed switch monitor. *)
Record Debounce : Type := mkDebounce {
  lastDebounceTime : Z;   (* unsigned long *)
  lastReedState : Level;
  reedState : Level
}.

(** Voltages are exact rationals; the rounding of [float] is not modelled. *)
Definition Message : Type := TrapMessage Q.

(** The node while it is awake.  [pending] holds the instants at which the
    radio driver will run [onDataSent] for frames it has accepted; [radio]
    lists the frames handed to [esp_now_send], oldest first, each with
    whether the call returned [ESP_OK]. *)
Record State : Type := mkState {
  rtc : Rtc;
  messageSent : bool;
  deb : Debounce;
  clock : Z;
  pending : list Z;
  radio : list (Message * bool)
}.

Definition set_rtc (r : Rtc) (n : State) : State :=
  mkState r (messageSent n) (deb n) (clock n) (pending n) (radio n).
Definition set_messageSent (b : bool) (n : State) : State :=
  mkState (rtc n) b (deb n) (clock n) (pending n) (radio n).
Definition set_deb (d : Debounce) (n : State) : State :=
  mkState (rtc n) (messageSent n) d (clock n) (pending n) (radio n).
Definition set_clock (t : Z) (n : State) : State :=
  mkState (rtc n) (messageSent n) (deb n) t (pending n) (radio n).
Definition set_pending (p : list Z) (n : State) : State :=
  mkState (rtc n) (messageSent n) (deb n) (clock n) p (radio n).
Definition set_radio (l : list (Message * bool)) (n : State) : State :=
  mkState (rtc n) (messageSent n) (deb n) (clock n) (pending n) l.

Definition set_lastDebounceTime (t : Z) (n : State) : State :=
  set_deb (mkDebounce t (lastReedState (deb n)) (reedState (deb n))) n.
Definition set_lastReedState (l : Level) (n : State) : State :=
  set_deb (mkDebounce (lastDebounceTime (deb n)) l (reedState (deb n))) n.
Definition set_reedState (l : Level) (n : State) : State :=
  set_deb (mkDebounce (lastDebounceTime (deb n)) (lastReedState (deb n)) l) n.

(** Memory as the start-up code leaves it on a wake from deep sleep: the
    RTC variables keep their values, everything else is initialised anew
    and the millisecond clock restarts. *)
Definition boot (r : Rtc) : State :=
  {| rtc := r; messageSent := false;
     deb := {| lastDebounceTime := 0; lastReedState := HIGH;
               reedState := HIGH |};
     clock := 0; pending := []; radio := [] |}.

(** *** Time and the send callback *)

Definition millis (n : State) : Z := wrap32 (clock n).

(** [onDataSent]: whatever the reported status, the flag is raised. *)
Definition onDataSent (n : State) : State := set_messageSent true n.

Definition due_by (t : Z) (c : Z) : bool := c <=? t.

(** [delay(d)]: the clock moves on by [d]; meanwhile the driver runs
    [onDataSent] once for every callback that falls due. *)
Definition delay (d : Z) (n : State) : State :=
  let t := clock n + d in
  let due := filter (due_by t) (pending n) in
  let later := filter (fun c => negb (due_by t c)) (pending n) in
  fold_left (fun m _ => onDataSent m) due (set_pending later (set_clock t n)).

(** *** Battery monitoring *)

(** [(rawValue / 4095.0) * VREF * DIVIDER_RATIO] for the ADC reading
    [rawValue]. *)
Definition readBatteryVoltage (rawValue : Z) : Q :=
  let VREF : Q := 33 # 10 in
  let DIVIDER_RATIO : Q := 2 # 1 in
  ((inject_Z rawValue / (4095 # 1)) * VREF * DIVIDER_RATIO)%Q.

Definition Qltb (x y : Q) : bool := negb (Qle_bool y x).

(** *** Message sending *)

(** [esp_now_send]: the frame is handed to the driver.  When the driver
    accepts it ([ok]) and will confirm it, the callback is queued for
    [confirm_after] milliseconds from now. *)
Definition esp_now_send (ok : bool) (confirm_after : option Z) (msg : Message)
    (n : State) : State :=
  let n := set_radio (radio n ++ [(msg, ok)]) n in
  match ok, confirm_after with
  | true, Some c => set_pending (pending n ++ [clock n + c]) n
  | _, _ => n
  end.

(** [while (!messageSent && (millis() - startTime < 1000)) delay(10);] *)
Fixpoint await_confirmation (fuel : nat) (startTime : Z) (n : State)
    : option State :=
  match fuel with
  | O => None
  | S fuel' =>
      if negb (messageSent n)
         && (elapsed32 (millis n) startTime <? SEND_WAIT_MS)
      then await_confirmation fuel' startTime (delay 10 n)
      else Some n
  end.

(** [sendMessage(eventType)].  [rawValue] is what [analogRead] returns,
    [ok] whether [esp_now_send] returns [ESP_OK], [confirm_after] when the
    driver confirms the frame, if ever. *)
Definition sendMessage (fuel : nat) (rawValue : Z) (ok : bool)
    (confirm_after : option Z) (eventType : Z) (n : State)
    : option (bool * State) :=
  let msg : Message :=
    {| node_id := NODE_ID; event_type := eventType;
       trap_count := trapCount (rtc n);
       battery_voltage := readBatteryVoltage rawValue;
       route_hops := 0; timestamp := millis n |} in
  let n := set_messageSent false n in
  let n := esp_now_send ok confirm_after msg n in
  if ok then
    let startTime := millis n in
    match await_confirmation fuel startTime n with
    | Some n' => Some (messageSent n', n')
    | None => None
    end
  else Some (false, n).

(** *** Reed switch monitoring *)

(** The reed line is a function of the clock. *)
Definition digitalRead (line : Z -> Level) (n : State) : Level :=
  line (clock n).

(** [checkTrapTriggered()]. *)
Definition checkTrapTriggered (line : Z -> Level) (n : State)
    : bool * State :=
  let reading := digitalRead line n in
  let n1 := if Level_eqb reading (lastReedState (deb n)) then n
            else set_lastDebounceTime (millis n) n in
  if DEBOUNCE_MS <? elapsed32 (millis n1) (lastDebounceTime (deb n1)) then
    if negb (Level_eqb reading (reedState (deb n1))) then
      let n2 := set_reedState reading n1 in
      match reedState (deb n2) with
      | LOW =>
          let n3 := delay TRIGGER_STABLE_MS n2 in
          match digitalRead line n3 with
          | LOW => (true, n3)
          | HIGH => (false, set_lastReedState reading n3)
          end
      | HIGH => (false, set_lastReedState reading n2)
      end
    else (false, set_lastReedState reading n1)
  else (false, set_lastReedState reading n1).

(** One observation of the detector: when it was called, what it read and
    whether it answered [true]. *)
Record Poll : Type := mkPoll {
  poll_time : Z;
  poll_reading : Level;
  poll_triggered : bool
}.

(** The detector called over and over, the caller letting [g] milliseconds
    pass before each call, for the successive [g] of [gaps]: the states in
    which the calls are made. *)
Fixpoint poll_states (line : Z -> Level) (gaps : list nat) (n : State)
    : list State :=
  match gaps with
  | [] => []
  | g :: gaps' =>
      let n1 := delay (Z.of_nat g) n in
      n1 :: poll_states line gaps' (snd (checkTrapTriggered line n1))
  end.

Definition observe (line : Z -> Level) (n : State) : Poll :=
  mkPoll (clock n) (digitalRead line n) (fst (checkTrapTriggered line n)).

(** What is seen of the detector over these calls. *)
Definition poll (line : Z -> Level) (gaps : list nat) (n : State)
    : list Poll :=
  map (observe line) (poll_states line gaps n).

(** The value [lastDebounceTime] has once the first [if] of
    [checkTrapTriggered] is past. *)
Definition run_start (line : Z -> Level) (n : State) : Z :=
  if Level_eqb (digitalRead line n) (lastReedState (deb n))
  then lastDebounceTime (deb n)
  else millis n.

(** The test of the second [if] of [checkTrapTriggered]. *)
Definition settled (line : Z -> Level) (n : State) : bool :=
  DEBOUNCE_MS <? elapsed32 (millis n) (run_start line n).

(** *** The wake cycle *)

Inductive WakeCause : Type :=
| WAKEUP_EXT0        (* the reed line *)
| WAKEUP_TIMER       (* the sleep timer *)
| WAKEUP_UNDEFINED.  (* not a wake from deep sleep *)

(** What one wake cycle meets. *)
Record Wake : Type := mkWake {
  cause : WakeCause;
  init_ok : bool;            (* esp_now_init() == ESP_OK *)
  peer_ok : bool;            (* esp_now_add_peer() == ESP_OK *)
  adc_setup : Z;             (* analogRead in setup *)
  adc_send : Z;              (* analogRead in sendMessage *)
  send_ok : bool;            (* esp_now_send() == ESP_OK *)
  confirm_after : option Z;  (* when the send callback runs, if ever *)
  reed : Z -> Level          (* the reed line since boot *)
}.

Fixpoint blinkLED_loop (times : nat) (delayMs : Z) (n : State) : State :=
  match times with
  | O => n
  | S times' => blinkLED_loop times' delayMs (delay delayMs (delay delayMs n))
  end.

Definition blinkLED (times delayMs : Z) (n : State) : State :=
  blinkLED_loop (Z.to_nat times) delayMs n.

(** How [setup] ends: [ESP.restart()] after a failed initialisation (and
    the error blink that precedes it), or [esp_deep_sleep_start()] with the
    RTC memory as it then stands; [sent] lists the frames handed to the
    radio during the cycle. *)
Inductive Outcome : Type :=
| Restarted
| DeepSleep (r : Rtc) (sent : list (Message * bool)).

Definition inc_trapCount (n : State) : State :=
  set_rtc (mkRtc (wrap32 (trapCount (rtc n) + 1)) (wakeCount (rtc n))
                 (lastTriggerTime (rtc n))) n.
Definition inc_wakeCount (n : State) : State :=
  set_rtc (mkRtc (trapCount (rtc n)) (wrap32 (wakeCount (rtc n) + 1))
                 (lastTriggerTime (rtc n))) n.
Definition set_lastTriggerTime (t : Z) (n : State) : State :=
  set_rtc (mkRtc (trapCount (rtc n)) (wakeCount (rtc n)) t) n.

(** [setup()], from wake to deep sleep. *)
Definition setup (fuel : nat) (w : Wake) (r : Rtc) : option Outcome :=
  let n := boot r in
  let n := delay 100 n in
  let n := blinkLED 2 50 n in
  let voltage := readBatteryVoltage (adc_setup w) in
  if negb (init_ok w) then Some Restarted
  else if negb (peer_ok w) then Some Restarted
  else
    let send := sendMessage fuel (adc_send w) (send_ok w) (confirm_after w) in
    let reported :=
      match cause w with
      | WAKEUP_EXT0 =>
          let n := inc_trapCount n in
          let n := set_lastTriggerTime (millis n) n in
          let n := blinkLED 5 100 n in
          match send TRIGGER n with
          | Some (_, n) => Some (delay 500 n)
          | None => None
          end
      | _ =>
          if wakeCount (rtc n) mod BATTERY_CHECK_INTERVAL =? 0 then
            if Qltb voltage LOW_BATTERY_THRESHOLD
            then option_map snd (send LOW_BATTERY n)
            else option_map snd (send STATUS n)
          else Some n
      end in
    match reported with
    | None => None
    | Some n =>
        let n := inc_wakeCount n in
        let n := delay 100 n in
        let '(triggered, n) := checkTrapTriggered (reed w) n in
        let n := if triggered then blinkLED 3 200 n else n in
        Some (DeepSleep (rtc n) (radio n))
    end.

(** Successive wake cycles: the RTC memory one cycle leaves is the memory
    the next one finds.  The result lists the outcome of every cycle; it
    stops short at a restart, after which the source does not say what the
    RTC memory holds. *)
Fixpoint cycles (fuel : nat) (ws : list Wake) (r : Rtc)
    : option (list Outcome) :=
  match ws with
  | [] => Some []
  | w :: ws' =>
      match setup fuel w r with
      | None => None
      | Some Restarted => Some [Restarted]
      | Some (DeepSleep r' sent) =>
          option_map (cons (DeepSleep r' sent)) (cycles fuel ws' r')
      end
  end.

(** The event types of the frames handed to the radio, in order. *)
Definition event_types (sent : list (Message * bool)) : list Z :=
  map (fun x => event_type (fst x)) sent.

(** A wake caused by the reed line. *)
Definition is_trigger (w : Wake) : bool :=
  match cause w with
  | WAKEUP_EXT0 => true
  | _ => false
  end.

(** How many of the wakes were caused by the reed line. *)
Definition triggers (ws : list Wake) : Z :=
  Z.of_nat (List.length (filter is_trigger ws)).

(** *** Sample inputs *)

(** A wake on which the radio comes up, the frame is accepted and confirmed
    after 30 ms, and the trap stands open.  An ADC reading of 1900 is about
    3.06 V, one of 2400 about 3.87 V. *)
Definition sample_wake (c : WakeCause) (rawValue : Z) : Wake :=
  {| cause := c; init_ok := true; peer_ok := true;
     adc_setup := rawValue; adc_send := rawValue;
     send_ok := true; confirm_after := Some 30;
     reed := fun _ => HIGH |}.

(** RTC memory holding given counters. *)
Definition sample_rtc (traps wakes : Z) : Rtc :=
  {| trapCount := traps; wakeCount := wakes; lastTriggerTime := 0 |}.

(** The value of [trapCount] at each deep sleep of a run of cycles. *)
Definition trap_counts (outs : list Outcome) : list Z :=
  flat_map (fun o => match o with
                     | DeepSleep r _ => [trapCount r]
                     | Restarted => []
                     end) outs.

(** A counter that starts at [c] and goes up by one at each wake caused by
    the reed line: its value after each wake. *)
Fixpoint counts_after (c : Z) (ws : list Wake) : list Z :=
  match ws with
  | [] => []
  | w :: ws' =>
      let c' := c + (if is_trigger w then 1 else 0) in
      c' :: counts_after c' ws'
  end.

(** A reed line that stands open, closes from 1000 ms to 3000 ms, opens
    again and closes for good at 5000 ms, polled every 100 ms. *)
Definition sample_line (t : Z) : Level :=
  if t <? 1000 then HIGH
  else if t <? 3000 then LOW
  else if t <? 5000 then HIGH
  else LOW.

Definition sample_gaps : list nat := repeat 100%nat 60.

(** *** The main loop *)

(** One pass of [loop()], which runs only when deep sleep is disabled.
    [line] is the reed line; the other inputs are those of
    [sendMessage]. *)
Definition loop (fuel : nat) (line : Z -> Level) (rawValue : Z) (ok : bool)
    (confirm_after : option Z) (n : State) : option State :=
  let '(triggered, n) := checkTrapTriggered line n in
  let handled :=
    if triggered then
      let n := inc_trapCount n in
      let n := blinkLED 5 100 n in
      match sendMessage fuel rawValue ok confirm_after TRIGGER n with
      | Some (_, n) => Some (delay 5000 n)
      | None => None
      end
    else Some n in
  option_map (delay 100) handled.

(** *** What a run of wake cycles reports *)

(** The event types one wake cycle hands to the radio when it finds the
    wake count at [wakes]. *)
Definition report_of (w : Wake) (wakes : Z) : list Z :=
  match cause w with
  | WAKEUP_EXT0 => [TRIGGER]
  | _ =>
      if wakes mod BATTERY_CHECK_INTERVAL =? 0 then
        if Qltb (readBatteryVoltage (adc_setup w)) LOW_BATTERY_THRESHOLD
        then [LOW_BATTERY] else [STATUS]
      else []
  end.

(** The same over successive wakes, the wake count going up by one each
    time. *)
Fixpoint reports_after (wakes : Z) (ws : list Wake) : list (list Z) :=
  match ws with
  | [] => []
  | w :: ws' => report_of w wakes :: reports_after (wakes + 1) ws'
  end.

(** The event types handed to the radio in each cycle of a run. *)
Definition reports (outs : list Outcome) : list (list Z) :=
  map (fun o => match o with
                | DeepSleep _ sent => event_types sent
                | Restarted => []
                end) outs.

(** The value of [wakeCount] at each deep sleep of a run. *)
Definition wake_counts (outs : list Outcome) : list Z :=
  flat_map (fun o => match o with
                     | DeepSleep r _ => [wakeCount r]
                     | Restarted => []
                     end) outs.

(** A detector that has just seen the line close for 100 ms: the state in
    which the second poll of a closed line is made. *)
Definition sample_closing : State :=
  {| rtc := power_on; messageSent := false;
     deb := {| lastDebounceTime := 1000; lastReedState := LOW;
               reedState := HIGH |};
     clock := 1100; pending := []; radio := [] |}.

(** A line that closes at 1000 ms and bounces open around 1300 ms. *)
Definition bouncing_line (t : Z) : Level :=
  if t <? 1000 then HIGH
  else if (1250 <=? t) && (t <? 1320) then HIGH
  else LOW.

End Node.

(** ** The gateway ([gateway.ino]) *)

Module Gateway.
Import Codec.

(** *** Configuration *)

Definition mqtt_topic_prefix : string := "trap/".
Definition gateway_status_topic : string := "gateway/status".
(** The literals of [reconnectMQTT]. *)
Definition MAX_ATTEMPTS : nat := 5.
Definition RETRY_DELAY_MS : Z := 5000.

(** *** What goes to the broker *)

Inductive JsonValue : Type :=
| JInt (z : Z)
| JFloat (bits : float32)
| JStr (s : string).

(** A JSON document: its members in the order they were set. *)
Definition JsonDocument : Type := list (string * JsonValue).

Inductive Payload : Type :=
| Text (s : string)
| Json (doc : JsonDocument).

(** What the gateway does that can be seen from outside, in order. *)
Inductive Event : Type :=
| Connect (ok : bool)     (* a call of mqttClient.connect and its result *)
| Delay (ms : Z)          (* a call of delay *)
| Publish (topic : string) (payload : Payload) (ok : bool).
                          (* a call of mqttClient.publish and its result *)

(** The broker side of the MQTT client: whether the k-th call of [connect],
    of [publish], succeeds. *)
Record Broker : Type := mkBroker {
  connect_ok : nat -> bool;
  publish_ok : nat -> bool
}.

Record State : Type := mkState {
  messagesReceived : Z;    (* uint32_t *)
  messagesForwarded : Z;   (* uint32_t *)
  connected : bool;        (* mqttClient.connected() *)
  clock : Z;
  connects : nat;          (* calls of connect so far *)
  publishes : nat;         (* calls of publish so far *)
  log : list Event
}.

Definition millis (s : State) : Z := wrap32 (clock s).

Definition delay (d : Z) (s : State) : State :=
  mkState (messagesReceived s) (messagesForwarded s) (connected s)
          (clock s + d) (connects s) (publishes s) (log s ++ [Delay d]).

Definition mqtt_connect (br : Broker) (s : State) : State :=
  let ok := connect_ok br (connects s) in
  mkState (messagesReceived s) (messagesForwarded s) ok (clock s)
          (S (connects s)) (publishes s) (log s ++ [Connect ok]).

Definition mqtt_publish (br : Broker) (topic : string) (payload : Payload)
    (s : State) : bool * State :=
  let ok := connected s && publish_ok br (publishes s) in
  (ok, mkState (messagesReceived s) (messagesForwarded s) (connected s)
               (clock s) (connects s) (S (publishes s))
               (log s ++ [Publish topic payload ok])).

Definition inc_messagesReceived (s : State) : State :=
  mkState (wrap32 (messagesReceived s + 1)) (messagesForwarded s)
          (connected s) (clock s) (connects s) (publishes s) (log s).

Definition inc_messagesForwarded (s : State) : State :=
  mkState (messagesReceived s) (wrap32 (messagesForwarded s + 1))
          (connected s) (clock s) (connects s) (publishes s) (log s).

(** *** Text formatting *)

Definition dquote : string := String (ascii_of_nat 34) EmptyString.

(** The literal payload of the online announcement, a JSON object with the
    one member [status] set to [online]. *)
Definition online_payload : string :=
  ("{" ++ dquote ++ "status" ++ dquote ++ ":"
       ++ dquote ++ "online" ++ dquote ++ "}")%string.

(** [snprintf(buf, size, ...)]: at most [size - 1] characters are kept. *)
Definition snprintf (size : nat) (s : string) : string :=
  substring 0 (size - 1) s.

(** [%d] *)
Definition decimal (z : Z) : string := NilZero.string_of_int (Z.to_int z).

Definition hex_digit (z : Z) : string :=
  substring (Z.to_nat z) 1 "0123456789ABCDEF".

(** [%02X] of a byte. *)
Definition hex2 (b : byte) : string :=
  (hex_digit (Z_of_byte b / 16) ++ hex_digit (Z_of_byte b mod 16))%string.

(** The [snprintf] of the six bytes at [mac] into [macStr]. *)
Definition format_mac (mac : list byte) : string :=
  let m (i : nat) := hex2 (nth i mac Byte.x00) in
  snprintf 18 (m 0%nat ++ ":" ++ m 1%nat ++ ":" ++ m 2%nat ++ ":"
               ++ m 3%nat ++ ":" ++ m 4%nat ++ ":" ++ m 5%nat)%string.

(** The [switch] on [msg.event_type] in [forwardToMQTT]. *)
Definition eventTypeStr (event_type : Z) : string :=
  match event_type with
  | 0 => "status"
  | 1 => "trigger"
  | 2 => "low_battery"
  | _ => "unknown"
  end.

(** Every name that [switch] can give. *)
Definition event_names : list string :=
  ["status"; "trigger"; "low_battery"; "unknown"]%string.

(** The text the format ["%s%d/%s"] gives for the prefix, a node number
    and an event type name. *)
Definition topic_text (id : Z) (name : string) : string :=
  (mqtt_topic_prefix ++ decimal id ++ "/" ++ name)%string.

(** The topic of a forwarded message: that text, in a buffer of 64. *)
Definition topic_of (msg : TrapMessage float32) : string :=
  snprintf 64 (topic_text (node_id msg) (eventTypeStr (event_type msg))).

(** The JSON document of a forwarded message. *)
Definition doc_of (msg : TrapMessage float32) (mac : list byte)
    (gateway_time : Z) : JsonDocument :=
  [ ("node_id", JInt (node_id msg));
    ("event_type", JInt (event_type msg));
    ("trap_count", JInt (trap_count msg));
    ("battery_voltage", JFloat (battery_voltage msg));
    ("route_hops", JInt (route_hops msg));
    ("timestamp", JInt (timestamp msg));
    ("gateway_time", JInt gateway_time);
    ("mac_address", JStr (format_mac mac));
    ("event_type_str", JStr (eventTypeStr (event_type msg))) ]%string.

(** *** MQTT connection *)

(** The loop of [reconnectMQTT]; [left] is [5 - attempts], so that
    [attempts < 5] reads [left <> 0].  The random client identifier has no
    part in what follows and is left out. *)
Fixpoint reconnect_loop (left : nat) (br : Broker) (s : State) : State :=
  match left with
  | O => s
  | S left' =>
      if connected s then s
      else
        let s := mqtt_connect br s in
        if connected s then
          snd (mqtt_publish br gateway_status_topic (Text online_payload) s)
        else reconnect_loop left' br (delay RETRY_DELAY_MS s)
  end.

Definition reconnectMQTT (br : Broker) (s : State) : State :=
  reconnect_loop MAX_ATTEMPTS br s.

(** *** Forwarding *)

Definition forwardToMQTT (br : Broker) (msg : TrapMessage float32)
    (mac : list byte) (s : State) : State :=
  let s := if negb (connected s) then reconnectMQTT br s else s in
  if negb (connected s) then s
  else
    let doc := doc_of msg mac (millis s) in
    let topic := topic_of msg in
    let '(ok, s) := mqtt_publish br topic (Json doc) s in
    if ok then inc_messagesForwarded s else s.

(** [onDataReceive(mac, data, len)], [len] being the length of [data]. *)
Definition onDataReceive (br : Broker) (mac data : list byte) (s : State)
    : State :=
  let s := delay 50 s in
  let s := inc_messagesReceived s in
  match decode data with
  | None => s
  | Some msg => forwardToMQTT br msg mac s
  end.


(** The connection attempts among the events of a log. *)
Definition attempts_of (l : list Event) : list bool :=
  flat_map (fun e => match e with Connect ok => [ok] | _ => [] end) l.

(** What [k] failed connection attempts leave in the log. *)
Definition failed_attempts (k : nat) : list Event :=
  List.concat (repeat [Connect false; Delay RETRY_DELAY_MS] k).

(** *** Sample inputs *)

(** Node 1 reporting a snap of the trap, its fifth, at 3.85 V. *)
Definition sample_message (event_type : Z) : TrapMessage float32 :=
  {| node_id := 1; event_type := event_type; trap_count := 5;
     battery_voltage := 1081501286; route_hops := 0; timestamp := 123456 |}.

Definition sample_padding : Padding :=
  mkPadding Byte.x00 Byte.x00 Byte.x00 Byte.x00 Byte.x00.

Definition sample_mac : list byte :=
  [Byte.x24; Byte.x0a; Byte.xc4; Byte.x12; Byte.x34; Byte.x56].

(** A broker that answers every call the same way. *)
Definition steady_broker (up : bool) : Broker :=
  {| connect_ok := fun _ => up; publish_ok := fun _ => up |}.

(** The gateway some time after its start, nothing received so far. *)
Definition sample_state (is_connected : bool) : State :=
  {| messagesReceived := 0; messagesForwarded := 0;
     connected := is_connected; clock := 234517;
     connects := 1; publishes := 1; log := [] |}.

(** *** Status reporting *)

Definition STATUS_INTERVAL : Z := 60000.

(** [publishGatewayStatus()]; [rssi] and [free_heap] are what [WiFi.RSSI()]
    and [ESP.getFreeHeap()] return. *)
Definition publishGatewayStatus (br : Broker) (rssi free_heap : Z)
    (s : State) : State :=
  if negb (connected s) then s
  else
    let doc : JsonDocument :=
      [ ("status", JStr "online");
        ("uptime", JInt (millis s / 1000));
        ("wifi_rssi", JInt rssi);
        ("messages_received", JInt (messagesReceived s));
        ("messages_forwarded", JInt (messagesForwarded s));
        ("free_heap", JInt free_heap) ]%string in
    snd (mqtt_publish br gateway_status_topic (Json doc) s).

(** *** WiFi connection *)

(** The literals of [setupWiFi]. *)
Definition WIFI_ATTEMPTS : nat := 30.
Definition WIFI_POLL_MS : Z := 500.

(** The loop of [setupWiFi]; [wifi t] tells whether [WiFi.status()] is
    [WL_CONNECTED] at time [t], and [left] is [30 - attempts]. *)
Fixpoint wifi_wait (left : nat) (wifi : Z -> bool) (s : State) : State :=
  match left with
  | O => s
  | S left' =>
      if wifi (clock s) then s
      else wifi_wait left' wifi (delay WIFI_POLL_MS s)
  end.

(** [setupWiFi()].  What follows the loop only prints and sets the LED. *)
Definition setupWiFi (wifi : Z -> bool) (s : State) : State :=
  wifi_wait WIFI_ATTEMPTS wifi s.

(** *** The main loop *)

(** What one pass of [loop()] meets: whether [mqttClient.loop()] leaves the
    connection standing, the WiFi status over time, and the two readings of
    the status report. *)
Record Ambient : Type := mkAmbient {
  link_up : bool;
  wifi_up : Z -> bool;
  rssi_now : Z;
  heap_now : Z
}.

(** [mqttClient.loop()]: the client may find that the connection is gone. *)
Definition mqtt_loop (up : bool) (s : State) : State :=
  mkState (messagesReceived s) (messagesForwarded s) (connected s && up)
          (clock s) (connects s) (publishes s) (log s).

(** The gateway with the one global the main loop adds. *)
Record Bridge : Type := mkBridge {
  core : State;
  lastStatusUpdate : Z   (* unsigned long *)
}.

(** A pass of [loop()] up to the test of the status interval. *)
Definition loop_front (br : Broker) (a : Ambient) (s : State) : State :=
  let s := if negb (connected s) then reconnectMQTT br s else s in
  let s := mqtt_loop (link_up a) s in
  if negb (wifi_up a (clock s)) then setupWiFi (wifi_up a) s else s.

(** The test itself. *)
Definition status_due (lastStatusUpdate : Z) (s : State) : bool :=
  STATUS_INTERVAL <? elapsed32 (millis s) lastStatusUpdate.

(** One pass of [loop()]. *)
Definition loop (br : Broker) (a : Ambient) (b : Bridge) : Bridge :=
  let s := loop_front br a (core b) in
  let b' :=
    if status_due (lastStatusUpdate b) s then
      let s := publishGatewayStatus br (rssi_now a) (heap_now a) s in
      mkBridge s (millis s)
    else mkBridge s (lastStatusUpdate b) in
  mkBridge (delay 10 (core b')) (lastStatusUpdate b').


(** *** Runs of frames *)

(** The callback run for each of a series of frames, each with the address
    it came from. *)
Definition receive_all (br : Broker) (frames : list (list byte * list byte))
    (s : State) : State :=
  fold_left (fun s f => onDataReceive br (fst f) (snd f) s) frames s.

(** A publish that succeeded on a topic other than the status topic. *)
Definition is_forward (e : Event) : bool :=
  match e with
  | Publish topic _ true => negb (String.eqb topic gateway_status_topic)
  | _ => false
  end.

(** How many of these a log holds. *)
Definition forwards (l : list Event) : Z :=
  Z.of_nat (List.length (filter is_forward l)).

(** A gateway that has been up for a while and has counted some frames. *)
Definition sample_bridge : Bridge :=
  {| core := {| messagesReceived := 12; messagesForwarded := 11;
                connected := true; clock := 59990;
                connects := 1; publishes := 12; log := [] |};
     lastStatusUpdate := 0 |}.



End Gateway.

(** * Properties *)

(** ** Machine integers and bytes *)

Lemma wrap32_range z : is_u32 (wrap32 z).
Proof. unfold is_u32, wrap32. apply Z.mod_pos_bound. lia. Qed.

Lemma wrap32_small z : is_u32 z -> wrap32 z = z.
Proof. unfold is_u32, wrap32. intros H. apply Z.mod_small. exact H. Qed.

Lemma elapsed32_wrap_l a b : elapsed32 (wrap32 a) b = elapsed32 a b.
Proof. unfold elapsed32, wrap32. apply Zminus_mod_idemp_l. Qed.

Lemma elapsed32_wrap_r a b : elapsed32 a (wrap32 b) = elapsed32 a b.
Proof. unfold elapsed32, wrap32. apply Zminus_mod_idemp_r. Qed.

Lemma elapsed32_same a : elapsed32 a a = 0.
Proof. unfold elapsed32, wrap32. rewrite Z.sub_diag. reflexivity. Qed.

(** On a clock that does not run backwards the wrapped difference never
    exceeds the time that really passed. *)
Lemma elapsed32_le a b : b <= a -> elapsed32 a b <= a - b.
Proof.
  intros H. unfold elapsed32, wrap32. apply Z.mod_le; lia.
Qed.

Lemma Z_of_byte_range b : 0 <= Z_of_byte b < 256.
Proof.
  unfold Z_of_byte. pose proof (Byte.to_N_bounded b). lia.
Qed.

Lemma Z_of_byte_of_Z z : Z_of_byte (byte_of_Z z) = z mod 256.
Proof.
  unfold Z_of_byte, byte_of_Z.
  assert (Hr : 0 <= z mod 256 < 256) by (apply Z.mod_pos_bound; lia).
  destruct (Byte.of_N (Z.to_N (z mod 256))) as [b|] eqn:E.
  - apply Byte.to_of_N in E. rewrite E. lia.
  - apply Byte.of_N_None_iff in E. lia.
Qed.

Lemma un_le32_le32 z :
  is_u32 z ->
  un_le32 (byte_of_Z z) (byte_of_Z (z / 2 ^ 8)) (byte_of_Z (z / 2 ^ 16))
          (byte_of_Z (z / 2 ^ 24)) = z.
Proof.
  unfold is_u32, un_le32. intros H. rewrite !Z_of_byte_of_Z.
  change (2 ^ 8) with 256. change (2 ^ 16) with (256 * 256).
  change (2 ^ 24) with (256 * 256 * 256).
  change (2 ^ 32) with (256 * 256 * 256 * 256) in H.
  rewrite <- !Z.div_div by lia.
  pose proof (Z.div_mod z 256 ltac:(lia)) as H0.
  pose proof (Z.div_mod (z / 256) 256 ltac:(lia)) as H1.
  pose proof (Z.div_mod (z / 256 / 256) 256 ltac:(lia)) as H2.
  assert (H3 : 0 <= z / 256 / 256 / 256 < 256).
  { split.
    - repeat apply Z.div_pos; lia.
    - repeat (apply Z.div_lt_upper_bound; [lia|]). lia. }
  rewrite (Z.mod_small (z / 256 / 256 / 256) 256) by exact H3.
  lia.
Qed.

Lemma un_le32_range b0 b1 b2 b3 : is_u32 (un_le32 b0 b1 b2 b3).
Proof.
  unfold is_u32, un_le32.
  pose proof (Z_of_byte_range b0). pose proof (Z_of_byte_range b1).
  pose proof (Z_of_byte_range b2). pose proof (Z_of_byte_range b3).
  change (2 ^ 8) with 256. change (2 ^ 16) with 65536.
  change (2 ^ 24) with 16777216. change (2 ^ 32) with 4294967296.
  lia.
Qed.

(** ** The frame *)

Module CodecSpec.
Import Codec.

Lemma encode_length p m :
  Z.of_nat (List.length (encode p m)) = sizeof_TrapMessage.
Proof. reflexivity. Qed.

Lemma decode_well_typed data m : decode data = Some m -> well_typed m.
Proof.
  unfold decode. destruct (_ =? _); [|discriminate].
  intros E. injection E as <-. unfold well_typed, memcpy_msg; cbn.
  repeat split; try apply un_le32_range; apply Z_of_byte_range.
Qed.

Lemma decode_encode p m : well_typed m -> decode (encode p m) = Some m.
Proof.
  intros (Hn & He & Hc & Hb & Hh & Ht).
  unfold decode. rewrite encode_length, Z.eqb_refl.
  destruct m as [n e c b h t]; cbn in *.
  unfold memcpy_msg, encode, le32; cbn [nth app node_id event_type
    trap_count battery_voltage route_hops timestamp].
  rewrite !un_le32_le32 by assumption.
  rewrite !Z_of_byte_of_Z.
  unfold is_u8 in *. change (2 ^ 8) with 256 in *.
  rewrite !Z.mod_small by assumption.
  reflexivity.
Qed.

Lemma decode_wrong_length data :
  Z.of_nat (List.length data) <> sizeof_TrapMessage -> decode data = None.
Proof.
  intros H. unfold decode.
  destruct (Z.eqb_spec (Z.of_nat (List.length data)) sizeof_TrapMessage);
    [contradiction | reflexivity].
Qed.

(** C2. A message whose members hold values of their C types, laid out as a
    frame and decoded again, comes back equal in every member, whatever the
    padding bytes of the frame hold; and a byte sequence whose length is not
    [sizeof(TrapMessage)] is rejected, no message being built from it. *)
Theorem frame_round_trip
    (p : Padding) (m : TrapMessage float32) (data : list byte) :
  well_typed m ->
  Z.of_nat (List.length data) <> sizeof_TrapMessage ->
  decode (encode p m) = Some m /\ decode data = None.
Proof.
  intros Hwt Hlen. split.
  - apply decode_encode. exact Hwt.
  - apply decode_wrong_length. exact Hlen.
Qed.

(** A trigger message of node 1 at 3.85 V (bit pattern [0x40766666]), and a
    frame of three bytes. *)
Lemma frame_round_trip_witness :
  decode (encode (mkPadding Byte.xff Byte.x00 Byte.x5a Byte.x01 Byte.x80)
                 (mkTrapMessage 1 TRIGGER 5 1081501286 0 123456))
    = Some (mkTrapMessage 1 TRIGGER 5 1081501286 0 123456) /\
  decode [Byte.x01; Byte.x01; Byte.x05] = None.
Proof.
  apply (frame_round_trip
           (mkPadding Byte.xff Byte.x00 Byte.x5a Byte.x01 Byte.x80)
           (mkTrapMessage 1 TRIGGER 5 1081501286 0 123456)
           [Byte.x01; Byte.x01; Byte.x05]).
  - unfold well_typed, is_u8, is_u32, TRIGGER. cbn. lia.
  - cbn. discriminate.
Defined.

End CodecSpec.

(** ** The node *)

Module NodeSpec.
Import Codec Node.

(** *** [delay] and the send callback *)

Lemma callbacks_run (l : list Z) (n : State) :
  fold_left (fun m _ => onDataSent m) l n =
  match l with [] => n | _ :: _ => onDataSent n end.
Proof.
  revert n. induction l as [|c l IH]; intros n; [reflexivity|].
  cbn [fold_left]. rewrite IH. destruct l; reflexivity.
Qed.

Lemma filter_nil_existsb (f : Z -> bool) (l : list Z) :
  existsb f l = match filter f l with [] => false | _ :: _ => true end.
Proof.
  induction l as [|c l IH]; [reflexivity|].
  cbn. destruct (f c); [reflexivity | exact IH].
Qed.

Lemma delay_clock d n : clock (delay d n) = clock n + d.
Proof.
  unfold delay. rewrite callbacks_run.
  destruct (filter _ _); reflexivity.
Qed.

Lemma delay_messageSent d n :
  messageSent (delay d n) =
  messageSent n || existsb (due_by (clock n + d)) (pending n).
Proof.
  unfold delay. rewrite callbacks_run, filter_nil_existsb.
  destruct (filter (due_by _) _); cbn; [rewrite orb_false_r | rewrite orb_true_r];
    reflexivity.
Qed.

Lemma delay_pending d n :
  pending (delay d n) =
  filter (fun c => negb (due_by (clock n + d) c)) (pending n).
Proof.
  unfold delay. rewrite callbacks_run.
  destruct (filter (due_by _) _); reflexivity.
Qed.

Lemma delay_rtc d n : rtc (delay d n) = rtc n.
Proof.
  unfold delay. rewrite callbacks_run. destruct (filter _ _); reflexivity.
Qed.

Lemma delay_deb d n : deb (delay d n) = deb n.
Proof.
  unfold delay. rewrite callbacks_run. destruct (filter _ _); reflexivity.
Qed.

Lemma delay_radio d n : radio (delay d n) = radio n.
Proof.
  unfold delay. rewrite callbacks_run. destruct (filter _ _); reflexivity.
Qed.

(** After a [delay] no callback that was due is left waiting. *)
Lemma delay_none_overdue d n :
  existsb (due_by (clock (delay d n))) (pending (delay d n)) = false.
Proof.
  rewrite delay_clock, delay_pending.
  induction (pending n) as [|c l IH]; [reflexivity|].
  cbn. destruct (due_by (clock n + d) c) eqn:E; cbn; [exact IH|].
  rewrite E. exact IH.
Qed.

(** Callbacks due by [t1] or, among the others, by a later [t2], are the
    callbacks due by [t2]. *)
Lemma due_split t1 t2 (l : list Z) :
  t1 <= t2 ->
  existsb (due_by t1) l
  || existsb (due_by t2) (filter (fun c => negb (due_by t1 c)) l)
  = existsb (due_by t2) l.
Proof.
  intros H. induction l as [|c l IH]; [reflexivity|].
  cbn. unfold due_by in *.
  destruct (Z.leb_spec c t1) as [H1|H1]; cbn.
  - destruct (Z.leb_spec c t2); [reflexivity | lia].
  - rewrite <- IH. destruct (Z.leb_spec c t2); cbn.
    + apply orb_true_r.
    + reflexivity.
Qed.

Lemma elapsed32_after c a :
  is_u32 a -> elapsed32 (wrap32 (c + a)) (wrap32 c) = a.
Proof.
  intros H. rewrite elapsed32_wrap_l, elapsed32_wrap_r.
  unfold elapsed32. replace (c + a - c) with a by lia.
  apply wrap32_small. exact H.
Qed.

(** *** The confirmation wait *)

(** The wait entered [10 * k] ms after the send: it ends, at the latest at
    1000 ms, and the flag then tells whether a callback fell due by then. *)
Lemma await_confirmation_spec (fuel : nat) :
  forall (k : Z) (c0 : Z) (n : State),
    0 <= k <= 100 ->
    clock n = c0 + 10 * k ->
    100 - k < Z.of_nat fuel ->
    (k = 100 -> existsb (due_by (clock n)) (pending n) = false) ->
    exists n',
      await_confirmation fuel (wrap32 c0) n = Some n' /\
      messageSent n' =
        messageSent n || existsb (due_by (c0 + SEND_WAIT_MS)) (pending n) /\
      rtc n' = rtc n /\ radio n' = radio n /\ deb n' = deb n /\
      clock n <= clock n' <= c0 + SEND_WAIT_MS.
Proof.
  induction fuel as [|fuel IH]; intros k c0 n Hk Hc Hf Hd; [lia|].
  cbn [await_confirmation]. unfold millis. rewrite Hc.
  rewrite elapsed32_after by (unfold is_u32; lia).
  unfold SEND_WAIT_MS in *.
  destruct (messageSent n) eqn:Hm; cbn [negb andb].
  - exists n. rewrite Hm. cbn [orb]. repeat split; try reflexivity; lia.
  - destruct (Z.ltb_spec (10 * k) 1000) as [Hlt|Hge].
    + destruct (IH (k + 1) c0 (delay 10 n)) as (n' & E & Hs & Hr & Hra & Hde & Hcl).
      * lia.
      * rewrite delay_clock. lia.
      * lia.
      * intros _. apply delay_none_overdue.
      * exists n'. split; [exact E|].
        rewrite Hs, Hr, Hra, Hde, delay_messageSent, delay_pending,
          delay_rtc, delay_radio, delay_deb, Hm.
        rewrite delay_clock in Hcl.
        repeat split; try lia.
        cbn [orb]. apply due_split. lia.
    + exists n. assert (k = 100) by lia. subst k.
      rewrite Hm. specialize (Hd eq_refl). rewrite Hc in Hd.
      replace (c0 + 10 * 100) with (c0 + 1000) in * by lia.
      rewrite Hd. repeat split; try reflexivity; lia.
Qed.

Lemma esp_now_send_clock ok cb msg n : clock (esp_now_send ok cb msg n) = clock n.
Proof. unfold esp_now_send. destruct ok, cb; reflexivity. Qed.

Lemma esp_now_send_messageSent ok cb msg n :
  messageSent (esp_now_send ok cb msg n) = messageSent n.
Proof. unfold esp_now_send. destruct ok, cb; reflexivity. Qed.

Lemma esp_now_send_rtc ok cb msg n : rtc (esp_now_send ok cb msg n) = rtc n.
Proof. unfold esp_now_send. destruct ok, cb; reflexivity. Qed.

Lemma esp_now_send_radio ok cb msg n :
  radio (esp_now_send ok cb msg n) = radio n ++ [(msg, ok)].
Proof. unfold esp_now_send. destruct ok, cb; reflexivity. Qed.

Lemma esp_now_send_pending cb msg n :
  pending (esp_now_send true cb msg n) =
  pending n ++ match cb with Some c => [clock n + c] | None => [] end.
Proof.
  unfold esp_now_send. destruct cb; cbn; [reflexivity|].
  symmetry. apply app_nil_r.
Qed.

Lemma await_confirmation_frame fuel :
  forall start n n',
    await_confirmation fuel start n = Some n' ->
    rtc n' = rtc n /\ radio n' = radio n /\ deb n' = deb n.
Proof.
  induction fuel as [|fuel IH]; intros start n n' E; [discriminate|].
  cbn [await_confirmation] in E.
  destruct (negb (messageSent n) && _).
  - apply IH in E. rewrite delay_rtc, delay_radio, delay_deb in E. exact E.
  - injection E as <-. auto.
Qed.

(** What a call of [sendMessage] does, beyond its result: one frame goes to
    the radio, the RTC memory and the detector are left alone. *)
Lemma sendMessage_effect fuel raw ok cb ev n b n' :
  sendMessage fuel raw ok cb ev n = Some (b, n') ->
  rtc n' = rtc n /\ deb n' = deb n /\
  exists msg, radio n' = radio n ++ [(msg, ok)] /\ event_type msg = ev /\
              trap_count msg = trapCount (rtc n).
Proof.
  unfold sendMessage.
  set (msg := mkTrapMessage _ _ _ _ _ _).
  set (n2 := esp_now_send ok cb msg _).
  assert (H2 : rtc n2 = rtc n /\ deb n2 = deb n /\
               radio n2 = radio n ++ [(msg, ok)]).
  { unfold n2, esp_now_send. destruct ok, cb; auto. }
  destruct H2 as (Hr & Hd & Hra).
  destruct ok.
  - destruct (await_confirmation fuel (millis n2) n2) as [n3|] eqn:E;
      [|discriminate].
    intros H. injection H as _ <-.
    apply await_confirmation_frame in E. destruct E as (Er & Era & Ed).
    rewrite Er, Ed, Era, Hr, Hd, Hra. repeat split. exists msg. auto.
  - intros H. injection H as _ <-.
    rewrite Hr, Hd, Hra. repeat split. exists msg. auto.
Qed.

(** C1. [sendMessage] always returns, and it returns [true] exactly when
    [esp_now_send] returned [ESP_OK] and a send callback ran within the
    1000 ms wait that follows; so it returns [false] when the wait times
    out and when the send call fails.  On a node with no callback still
    outstanding from an earlier send, the callback is that of this very
    frame: [true] exactly when the frame is confirmed at most 1000 ms
    after the call. *)
Theorem sendMessage_confirmation
    (fuel : nat) (raw : Z) (ok : bool) (cb : option Z) (ev : Z) (n : State) :
  (101 <= fuel)%nat ->
  exists b n',
    sendMessage fuel raw ok cb ev n = Some (b, n') /\
    (b = true <->
     ok = true /\
     exists due,
       In due (pending n ++
               match cb with Some c => [clock n + c] | None => [] end) /\
       due <= clock n + SEND_WAIT_MS) /\
    (pending n = [] ->
     (b = true <-> ok = true /\ exists c, cb = Some c /\ c <= SEND_WAIT_MS)).
Proof.
  intros Hfuel. unfold sendMessage.
  set (msg := mkTrapMessage _ _ _ _ _ _).
  destruct ok.
  - set (n2 := esp_now_send true cb msg _).
    assert (Hc : clock n2 = clock n)
      by exact (esp_now_send_clock true cb msg (set_messageSent false n)).
    assert (Hm : messageSent n2 = false)
      by exact (esp_now_send_messageSent true cb msg
                  (set_messageSent false n)).
    assert (Hp : pending n2 = pending n ++
               match cb with Some c => [clock n + c] | None => [] end)
      by exact (esp_now_send_pending cb msg (set_messageSent false n)).
    destruct (await_confirmation_spec fuel 0 (clock n) n2)
      as (n3 & E & Hs & _); try lia.
    unfold millis. rewrite Hc, E. exists (messageSent n3), n3.
    rewrite Hs, Hm, Hp. cbn [orb].
    assert (Hiff : forall l,
      existsb (due_by (clock n + SEND_WAIT_MS)) l = true <->
      true = true /\ exists due, In due l /\ due <= clock n + SEND_WAIT_MS).
    { intros l. rewrite existsb_exists. unfold due_by. split.
      - intros (x & Hx & Hle). split; [reflexivity|].
        exists x. split; [exact Hx | lia].
      - intros (_ & x & Hx & Hle). exists x. split; [exact Hx | lia]. }
    split; [reflexivity|]. split; [apply Hiff|].
    intros Hnil. rewrite Hnil. cbn [app]. rewrite Hiff.
    split; intros (_ & x & Hx); (split; [reflexivity|]).
    + destruct cb as [c|]; cbn in Hx; [|tauto].
      exists c. split; [reflexivity|]. destruct Hx as ([<-|[]] & Hle). lia.
    + destruct Hx as (-> & Hle). exists (clock n + x).
      split; [left; reflexivity | lia].
  - eexists false, _. split; [reflexivity|].
    split; [|intros _]; split; try discriminate; intros (H & _); discriminate.
Qed.

(** A status frame sent from a freshly woken node and confirmed after
    30 ms. *)
Lemma sendMessage_confirmation_witness :
  exists b n',
    sendMessage 101 2400 true (Some 30) 0 (boot power_on) = Some (b, n') /\
    (b = true <->
     true = true /\
     exists due,
       In due (pending (boot power_on) ++ [clock (boot power_on) + 30]) /\
       due <= clock (boot power_on) + SEND_WAIT_MS) /\
    (pending (boot power_on) = [] ->
     (b = true <->
      true = true /\ exists c, Some 30 = Some c /\ c <= SEND_WAIT_MS)).
Proof.
  apply (sendMessage_confirmation 101 2400 true (Some 30) 0 (boot power_on)).
  lia.
Defined.

Lemma sendMessage_returns fuel raw ok cb ev n :
  (101 <= fuel)%nat ->
  exists b n', sendMessage fuel raw ok cb ev n = Some (b, n').
Proof.
  intros Hfuel. unfold sendMessage.
  set (msg := mkTrapMessage _ _ _ _ _ _).
  destruct ok; [|eauto].
  set (n2 := esp_now_send true cb msg _).
  destruct (await_confirmation_spec fuel 0 (clock n2) n2)
    as (n3 & E & _); try lia.
  unfold millis. rewrite E. eauto.
Qed.

(** *** The wake cycle *)

Lemma blinkLED_loop_frame times delayMs :
  forall n,
    rtc (blinkLED_loop times delayMs n) = rtc n /\
    radio (blinkLED_loop times delayMs n) = radio n.
Proof.
  induction times as [|times IH]; intros n; [auto|].
  cbn [blinkLED_loop]. destruct (IH (delay delayMs (delay delayMs n))) as (-> & ->).
  rewrite !delay_rtc, !delay_radio. auto.
Qed.

Lemma blinkLED_frame times delayMs n :
  rtc (blinkLED times delayMs n) = rtc n /\
  radio (blinkLED times delayMs n) = radio n.
Proof. apply blinkLED_loop_frame. Qed.

Lemma checkTrapTriggered_frame line n :
  rtc (snd (checkTrapTriggered line n)) = rtc n /\
  radio (snd (checkTrapTriggered line n)) = radio n.
Proof.
  unfold checkTrapTriggered.
  destruct (Level_eqb _ _); cbn -[delay DEBOUNCE_MS TRIGGER_STABLE_MS];
    destruct (DEBOUNCE_MS <? _); try (split; reflexivity);
    destruct (negb _); try (split; reflexivity);
    destruct (digitalRead line n); try (split; reflexivity);
    destruct (digitalRead line (delay _ _));
    cbn -[delay DEBOUNCE_MS TRIGGER_STABLE_MS];
    rewrite ?delay_rtc, ?delay_radio; split; reflexivity.
Qed.

(** What a wake cycle that gets past the initialisation of the radio does to
    the RTC memory, and what it reports. *)
Lemma setup_reaches_sleep fuel w r :
  (101 <= fuel)%nat -> init_ok w = true -> peer_ok w = true ->
  exists r' sent,
    setup fuel w r = Some (DeepSleep r' sent) /\
    wakeCount r' = wrap32 (wakeCount r + 1) /\
    trapCount r' =
      match cause w with
      | WAKEUP_EXT0 => wrap32 (trapCount r + 1)
      | _ => trapCount r
      end /\
    event_types sent =
      match cause w with
      | WAKEUP_EXT0 => [TRIGGER]
      | _ =>
          if wakeCount r mod BATTERY_CHECK_INTERVAL =? 0 then
            if Qltb (readBatteryVoltage (adc_setup w)) LOW_BATTERY_THRESHOLD
            then [LOW_BATTERY] else [STATUS]
          else []
      end.
Proof.
  intros Hfuel Hi Hp. unfold setup. rewrite Hi, Hp. cbn [negb].
  set (n0 := blinkLED 2 50 (delay 100 (boot r))).
  assert (H0 : rtc n0 = r /\ radio n0 = []).
  { unfold n0. destruct (blinkLED_frame 2 50 (delay 100 (boot r))) as (-> & ->).
    rewrite delay_rtc, delay_radio. auto. }
  destruct H0 as (Hr0 & Hra0). clearbody n0.
  (* the tail of the cycle, from [wakeCount++] on *)
  assert (Htail : forall n,
    exists r' sent,
      (let n1 := inc_wakeCount n in
       let n2 := delay 100 n1 in
       let '(triggered, n3) := checkTrapTriggered (reed w) n2 in
       let n4 := if triggered then blinkLED 3 200 n3 else n3 in
       Some (DeepSleep (rtc n4) (radio n4))) = Some (DeepSleep r' sent) /\
      wakeCount r' = wrap32 (wakeCount (rtc n) + 1) /\
      trapCount r' = trapCount (rtc n) /\ sent = radio n).
  { intros n. cbv zeta.
    pose proof (checkTrapTriggered_frame (reed w) (delay 100 (inc_wakeCount n)))
      as (Hc1 & Hc2).
    destruct (checkTrapTriggered (reed w) (delay 100 (inc_wakeCount n)))
      as [triggered n3]. cbn [snd] in Hc1, Hc2.
    rewrite delay_rtc in Hc1. rewrite delay_radio in Hc2.
    eexists _, _. split; [reflexivity|].
    destruct triggered.
    - destruct (blinkLED_frame 3 200 n3) as (-> & ->).
      rewrite Hc1, Hc2. auto.
    - rewrite Hc1, Hc2. auto. }
  (* a report followed by the tail *)
  assert (Hsend : forall ev n,
    exists n', option_map snd
                 (sendMessage fuel (adc_send w) (send_ok w) (confirm_after w)
                              ev n) = Some n' /\
               rtc n' = rtc n /\
               event_types (radio n') = event_types (radio n) ++ [ev]).
  { intros ev n.
    destruct (sendMessage_returns fuel (adc_send w) (send_ok w)
                (confirm_after w) ev n Hfuel) as (b & n' & E).
    exists n'. rewrite E. split; [reflexivity|].
    apply sendMessage_effect in E. destruct E as (Er & _ & msg & Era & Eev & _).
    split; [exact Er|]. unfold event_types. rewrite Era, map_app. cbn.
    rewrite Eev. reflexivity. }
  destruct (cause w).
  - set (n1 := blinkLED 5 100 _).
    assert (H1 : rtc n1 = mkRtc (wrap32 (trapCount r + 1)) (wakeCount r)
                           (millis (inc_trapCount n0)) /\ radio n1 = []).
    { unfold n1. destruct (blinkLED_frame 5 100
        (set_lastTriggerTime (millis (inc_trapCount n0)) (inc_trapCount n0)))
        as (-> & ->). cbn. rewrite Hr0, Hra0. auto. }
    destruct H1 as (Hr1 & Hra1).
    destruct (Hsend TRIGGER n1) as (n2 & E & Er & Era).
    destruct (sendMessage fuel _ _ _ TRIGGER n1) as [[b n2']|]; [|discriminate].
    cbn in E. injection E as ->.
    destruct (Htail (delay 500 n2)) as (r' & sent & E & Hw & Ht & Hs).
    exists r', sent. split; [exact E|].
    rewrite delay_rtc, Er, Hr1 in Hw, Ht. rewrite delay_radio in Hs.
    cbn in Hw, Ht. repeat split; try assumption.
    rewrite Hs, Era, Hra1. reflexivity.
  - rewrite Hr0.
    destruct (wakeCount r mod BATTERY_CHECK_INTERVAL =? 0).
    + destruct (Qltb _ _).
      * destruct (Hsend LOW_BATTERY n0) as (n2 & E & Er & Era). rewrite E.
        destruct (Htail n2) as (r' & sent & E' & Hw & Ht & Hs).
        exists r', sent. split; [exact E'|].
        rewrite Er, Hr0 in Hw, Ht. repeat split; try assumption.
        rewrite Hs, Era, Hra0. reflexivity.
      * destruct (Hsend STATUS n0) as (n2 & E & Er & Era). rewrite E.
        destruct (Htail n2) as (r' & sent & E' & Hw & Ht & Hs).
        exists r', sent. split; [exact E'|].
        rewrite Er, Hr0 in Hw, Ht. repeat split; try assumption.
        rewrite Hs, Era, Hra0. reflexivity.
    + destruct (Htail n0) as (r' & sent & E' & Hw & Ht & Hs).
      exists r', sent. split; [exact E'|].
      rewrite Hr0 in Hw, Ht. repeat split; try assumption.
      rewrite Hs, Hra0. reflexivity.
  - rewrite Hr0.
    destruct (wakeCount r mod BATTERY_CHECK_INTERVAL =? 0).
    + destruct (Qltb _ _).
      * destruct (Hsend LOW_BATTERY n0) as (n2 & E & Er & Era). rewrite E.
        destruct (Htail n2) as (r' & sent & E' & Hw & Ht & Hs).
        exists r', sent. split; [exact E'|].
        rewrite Er, Hr0 in Hw, Ht. repeat split; try assumption.
        rewrite Hs, Era, Hra0. reflexivity.
      * destruct (Hsend STATUS n0) as (n2 & E & Er & Era). rewrite E.
        destruct (Htail n2) as (r' & sent & E' & Hw & Ht & Hs).
        exists r', sent. split; [exact E'|].
        rewrite Er, Hr0 in Hw, Ht. repeat split; try assumption.
        rewrite Hs, Era, Hra0. reflexivity.
    + destruct (Htail n0) as (r' & sent & E' & Hw & Ht & Hs).
      exists r', sent. split; [exact E'|].
      rewrite Hr0 in Hw, Ht. repeat split; try assumption.
      rewrite Hs, Hra0. reflexivity.
Qed.




(** C10. A wake caused by the timer whose wake count is not a multiple of
    [BATTERY_CHECK_INTERVAL] hands no frame at all to the radio, whatever
    the battery voltage: the cycle ends in deep sleep with nothing sent, or,
    when the radio does not come up, in a restart before anything could be
    sent. *)
Theorem off_interval_wake_is_silent (fuel : nat) (w : Wake) (r : Rtc) :
  (101 <= fuel)%nat ->
  cause w = WAKEUP_TIMER ->
  wakeCount r mod BATTERY_CHECK_INTERVAL <> 0 ->
  setup fuel w r = Some Restarted \/
  exists r', setup fuel w r = Some (DeepSleep r' []).
Proof.
  intros Hfuel Hc Hm.
  destruct (init_ok w) eqn:Hi; [destruct (peer_ok w) eqn:Hp|].
  - right.
    destruct (setup_reaches_sleep fuel w r Hfuel Hi Hp)
      as (r' & sent & E & _ & _ & Hs).
    exists r'. rewrite E. rewrite Hc in Hs.
    destruct (Z.eqb_spec (wakeCount r mod BATTERY_CHECK_INTERVAL) 0);
      [contradiction|].
    apply map_eq_nil in Hs. rewrite Hs. reflexivity.
  - left. unfold setup. rewrite Hi, Hp. reflexivity.
  - left. unfold setup. rewrite Hi. reflexivity.
Qed.

(** The seventh wake of a node whose battery reads about 3.06 V. *)
Lemma off_interval_wake_is_silent_witness :
  setup 101 (sample_wake WAKEUP_TIMER 1900) (sample_rtc 3 7)
    = Some Restarted \/
  exists r',
    setup 101 (sample_wake WAKEUP_TIMER 1900) (sample_rtc 3 7)
      = Some (DeepSleep r' []).
Proof.
  apply (off_interval_wake_is_silent 101 (sample_wake WAKEUP_TIMER 1900)
           (sample_rtc 3 7)).
  - lia.
  - reflexivity.
  - vm_compute. discriminate.
Defined.

Lemma counts_after_sorted (ws : list Wake) :
  forall c, Sorted Z.le (c :: counts_after c ws).
Proof.
  induction ws as [|w ws IH]; intros c; cbn [counts_after].
  - repeat constructor.
  - constructor; [apply IH|]. constructor. destruct (is_trigger w); lia.
Qed.

Lemma triggers_cons w ws :
  triggers (w :: ws) = (if is_trigger w then 1 else 0) + triggers ws.
Proof.
  unfold triggers. cbn [filter]. destruct (is_trigger w); cbn [List.length]; lia.
Qed.

Lemma triggers_nonneg ws : 0 <= triggers ws.
Proof. unfold triggers. lia. Qed.

(** The counter at its largest value: the next wake caused by the reed line
    takes it back to 0. *)
Lemma trap_count_wraps_to_zero :
  exists r' sent,
    setup 101 (sample_wake WAKEUP_EXT0 2400) (sample_rtc 4294967295 7)
      = Some (DeepSleep r' sent) /\
    trapCount r' = 0 /\
    ~ trapCount (sample_rtc 4294967295 7) <= trapCount r' /\
    trapCount r' <> trapCount (sample_rtc 4294967295 7) + 1.
Proof.
  eexists _, _. split; [vm_compute; reflexivity|].
  cbn. repeat split; lia.
Qed.

(** C6, amended. Over any run of wake cycles that reach deep sleep, as long
    as the 32-bit counter does not overflow, [trapCount] is carried from
    each cycle to the next, goes up by exactly one on each wake caused by
    the reed line and stays as it is on any other wake; so it never
    decreases. *)
Theorem trap_count_history (fuel : nat) (ws : list Wake) (r : Rtc) :
  (101 <= fuel)%nat ->
  (forall w, In w ws -> init_ok w = true /\ peer_ok w = true) ->
  0 <= trapCount r ->
  trapCount r + triggers ws < 2 ^ 32 ->
  exists outs,
    cycles fuel ws r = Some outs /\
    trap_counts outs = counts_after (trapCount r) ws /\
    List.length (trap_counts outs) = List.length ws /\
    Sorted Z.le (trapCount r :: trap_counts outs).
Proof.
  intros Hfuel. revert r.
  induction ws as [|w ws IH]; intros r Hok H0 Hb.
  - exists []. repeat split. repeat constructor.
  - destruct (Hok w (or_introl eq_refl)) as (Hi & Hp).
    destruct (setup_reaches_sleep fuel w r Hfuel Hi Hp)
      as (r1 & sent & E & _ & Ht & _).
    rewrite triggers_cons in Hb. pose proof (triggers_nonneg ws) as Hn.
    assert (Ht' : trapCount r1 = trapCount r + (if is_trigger w then 1 else 0)).
    { rewrite Ht. unfold is_trigger in *.
      destruct (cause w); try lia.
      apply wrap32_small. unfold is_u32. lia. }
    destruct (IH r1) as (outs & Ec & Hcs & Hlen & _).
    + intros w' Hw'. apply Hok. right. exact Hw'.
    + rewrite Ht'. destruct (is_trigger w); lia.
    + rewrite Ht'. lia.
    + exists (DeepSleep r1 sent :: outs).
      cbn [cycles]. rewrite E, Ec.
      assert (Hall : trap_counts (DeepSleep r1 sent :: outs) =
                     counts_after (trapCount r) (w :: ws)).
      { cbn [trap_counts flat_map app counts_after].
        fold (trap_counts outs). rewrite Hcs, Ht'. reflexivity. }
      split; [reflexivity|]. split; [exact Hall|]. split.
      * cbn [trap_counts flat_map app List.length].
        fold (trap_counts outs). rewrite Hlen. reflexivity.
      * rewrite Hall. apply counts_after_sorted.
Qed.

(** Three cycles from power-on: a periodic wake, a snap of the trap, a
    periodic wake. *)
Lemma trap_count_history_witness :
  exists outs,
    cycles 101 [sample_wake WAKEUP_TIMER 2400; sample_wake WAKEUP_EXT0 2400;
                sample_wake WAKEUP_TIMER 2400] power_on = Some outs /\
    trap_counts outs =
      counts_after (trapCount power_on)
        [sample_wake WAKEUP_TIMER 2400; sample_wake WAKEUP_EXT0 2400;
         sample_wake WAKEUP_TIMER 2400] /\
    List.length (trap_counts outs) = 3%nat /\
    Sorted Z.le (trapCount power_on :: trap_counts outs).
Proof.
  apply (trap_count_history 101
           [sample_wake WAKEUP_TIMER 2400; sample_wake WAKEUP_EXT0 2400;
            sample_wake WAKEUP_TIMER 2400] power_on).
  - lia.
  - cbn. intros w [<-|[<-|[<-|[]]]]; split; reflexivity.
  - cbn. lia.
  - vm_compute. reflexivity.
Defined.

(** *** The reed switch monitor *)

Lemma Level_eqb_eq a b : Level_eqb a b = true <-> a = b.
Proof. destruct a, b; cbn; split; congruence. Qed.

(** A reading that differs from the last one restarts the debounce time, and
    the line then does not count as settled. *)
Lemma settled_same line n :
  settled line n = true ->
  digitalRead line n = lastReedState (deb n) /\
  run_start line n = lastDebounceTime (deb n).
Proof.
  unfold settled, run_start.
  destruct (Level_eqb _ _) eqn:E.
  - intros _. apply Level_eqb_eq in E. auto.
  - rewrite elapsed32_same. unfold DEBOUNCE_MS. cbn. discriminate.
Qed.

(** [checkTrapTriggered] in one piece: its answer, and the three globals and
    the clock as it leaves them. *)
Lemma checkTrapTriggered_spec line n :
  let reading := digitalRead line n in
  let fresh := settled line n && negb (Level_eqb reading (reedState (deb n))) in
  let waited := fresh && Level_eqb reading LOW in
  fst (checkTrapTriggered line n) =
    waited && Level_eqb (line (clock n + TRIGGER_STABLE_MS)) LOW /\
  deb (snd (checkTrapTriggered line n)) =
    {| lastDebounceTime := run_start line n;
       lastReedState := reading;
       reedState := if settled line n then reading else reedState (deb n) |} /\
  clock (snd (checkTrapTriggered line n)) =
    clock n + (if waited then TRIGGER_STABLE_MS else 0).
Proof.
  cbv zeta. unfold checkTrapTriggered, settled, run_start, digitalRead.
  destruct n as [r ms [ldt lrs rs] c pend rad].
  cbn [clock deb lastReedState reedState lastDebounceTime].
  destruct (line c), lrs, rs;
    cbn -[delay Z.ltb elapsed32 wrap32 Z.add DEBOUNCE_MS TRIGGER_STABLE_MS];
    rewrite ?elapsed32_same;
    change (DEBOUNCE_MS <? 0) with false;
    try destruct (DEBOUNCE_MS <? elapsed32 _ _);
    cbn -[delay Z.ltb elapsed32 wrap32 Z.add DEBOUNCE_MS TRIGGER_STABLE_MS];
    rewrite ?delay_clock;
    cbn -[delay Z.ltb elapsed32 wrap32 Z.add DEBOUNCE_MS TRIGGER_STABLE_MS];
    try destruct (line (c + TRIGGER_STABLE_MS));
    cbn -[delay Z.ltb elapsed32 wrap32 Z.add DEBOUNCE_MS TRIGGER_STABLE_MS];
    rewrite ?delay_deb, ?delay_clock;
    cbn -[delay Z.ltb elapsed32 wrap32 Z.add DEBOUNCE_MS TRIGGER_STABLE_MS];
    repeat split; try lia.
Qed.

Lemma checkTrapTriggered_clock line n :
  clock n <= clock (snd (checkTrapTriggered line n)).
Proof.
  destruct (checkTrapTriggered_spec line n) as (_ & _ & ->).
  unfold TRIGGER_STABLE_MS. destruct (_ && _); lia.
Qed.

(** What an answer of [true] takes. *)
Lemma triggered_inv line n :
  fst (checkTrapTriggered line n) = true ->
  settled line n = true /\
  digitalRead line n = LOW /\
  reedState (deb n) = HIGH /\
  line (clock n + TRIGGER_STABLE_MS) = LOW.
Proof.
  destruct (checkTrapTriggered_spec line n) as (-> & _ & _).
  rewrite !andb_true_iff, negb_true_iff, !Level_eqb_eq.
  intros (((Hs & Hr) & Hl) & Hw). rewrite Hl in Hr.
  repeat split; try assumption.
  destruct (reedState (deb n)); [discriminate | reflexivity].
Qed.

Section Polling.

Variable line : Z -> Level.

Lemma poll_states_clock :
  forall gaps n k s,
    nth_error (poll_states line gaps n) k = Some s -> clock n <= clock s.
Proof.
  induction gaps as [|g gaps IH]; intros n k s H; [destruct k; discriminate|].
  cbn [poll_states] in H. destruct k as [|k]; cbn [nth_error] in H.
  - injection H as <-. rewrite delay_clock. lia.
  - apply IH in H.
    pose proof (checkTrapTriggered_clock line (delay (Z.of_nat g) n)) as Hc.
    rewrite delay_clock in Hc. lia.
Qed.

(** When a call finds the line settled, the polls have read one and the same
    level for more than [DEBOUNCE_MS]: since an earlier poll of the run, or
    else since before the run began. *)
Lemma settled_run :
  forall gaps n k s,
    nth_error (poll_states line gaps n) k = Some s ->
    settled line s = true ->
    (exists j sj,
       (j < k)%nat /\ nth_error (poll_states line gaps n) j = Some sj /\
       DEBOUNCE_MS < clock s - clock sj /\
       forall i x, (j <= i <= k)%nat ->
                   nth_error (poll_states line gaps n) i = Some x ->
                   digitalRead line x = digitalRead line s)
    \/
    (lastReedState (deb n) = digitalRead line s /\
     DEBOUNCE_MS < elapsed32 (millis s) (lastDebounceTime (deb n)) /\
     forall i x, (i <= k)%nat ->
                 nth_error (poll_states line gaps n) i = Some x ->
                 digitalRead line x = digitalRead line s).
Proof.
  induction gaps as [|g gaps IH]; intros n k s H Hs; [destruct k; discriminate|].
  cbn [poll_states] in *.
  set (n1 := delay (Z.of_nat g) n) in *.
  assert (Hd1 : deb n1 = deb n) by apply delay_deb.
  destruct k as [|k]; cbn [nth_error] in H.
  - injection H as <-. right.
    destruct (settled_same line n1 Hs) as (Hr & Hrs).
    unfold settled in Hs. rewrite Hrs, Hd1 in Hs. rewrite Hd1 in Hr.
    apply Z.ltb_lt in Hs. repeat split; auto.
    intros i x Hi Hx. assert (i = 0%nat) by lia. subst i.
    cbn in Hx. congruence.
  - destruct (checkTrapTriggered_spec line n1) as (_ & Hdeb & _).
    pose proof (poll_states_clock _ _ _ _ H) as Hmono.
    pose proof (checkTrapTriggered_clock line n1) as Hc1.
    destruct (IH _ k s H Hs) as [(j & sj & Hj & Hnj & Ht & Hall)|(Hl & Ht & Hall)].
    + left. exists (S j), sj. repeat split; try lia; auto.
      intros i x Hi Hx. destruct i as [|i]; [lia|].
      apply (Hall i x); [lia | exact Hx].
    + rewrite Hdeb in Hl, Ht; cbn [lastReedState lastDebounceTime] in Hl, Ht.
      assert (Hall' : forall i x, (i <= S k)%nat ->
                nth_error (n1 :: poll_states line gaps
                                   (snd (checkTrapTriggered line n1))) i
                = Some x -> digitalRead line x = digitalRead line s).
      { intros i x Hi Hx. destruct i as [|i]; cbn in Hx.
        - injection Hx as <-. exact Hl.
        - apply (Hall i x); [lia | exact Hx]. }
      unfold run_start in Ht.
      destruct (Level_eqb _ _) eqn:E.
      * right. apply Level_eqb_eq in E. rewrite Hd1 in E, Ht.
        repeat split; auto. congruence.
      * left. exists 0%nat, n1. repeat split; try lia; auto.
        unfold millis in Ht. rewrite elapsed32_wrap_l, elapsed32_wrap_r in Ht.
        pose proof (elapsed32_le (clock s) (clock n1)). lia.
        intros i x Hi Hx. apply (Hall' i x); [lia | exact Hx].
Qed.

(** Once [reedState] is [LOW], an answer of [true] takes an earlier call
    that found the line settled at [HIGH]. *)
Lemma triggered_after_open :
  forall gaps n k s,
    nth_error (poll_states line gaps n) k = Some s ->
    fst (checkTrapTriggered line s) = true ->
    reedState (deb n) = LOW ->
    exists j sj,
      (j < k)%nat /\ nth_error (poll_states line gaps n) j = Some sj /\
      settled line sj = true /\ digitalRead line sj = HIGH.
Proof.
  induction gaps as [|g gaps IH]; intros n k s H Ht Hr; [destruct k; discriminate|].
  cbn [poll_states] in *.
  set (n1 := delay (Z.of_nat g) n) in *.
  assert (Hd1 : deb n1 = deb n) by apply delay_deb.
  destruct k as [|k]; cbn [nth_error] in H.
  - injection H as <-. apply triggered_inv in Ht.
    destruct Ht as (_ & _ & Hh & _). rewrite Hd1 in Hh. congruence.
  - destruct (checkTrapTriggered_spec line n1) as (_ & Hdeb & _).
    destruct (reedState (deb (snd (checkTrapTriggered line n1)))) eqn:E.
    + destruct (IH _ k s H Ht E) as (j & sj & Hj & Hnj & Hsj & Hhj).
      exists (S j), sj. repeat split; try lia; auto.
    + rewrite Hdeb in E. cbn [reedState] in E.
      exists 0%nat, n1. destruct (settled line n1) eqn:Es.
      * repeat split; try lia; auto.
      * rewrite Hd1 in E. congruence.
Qed.

(** The polls that follow a given one are themselves the polls of a run,
    from the state that poll left. *)
Lemma poll_states_after :
  forall gaps n k s,
    nth_error (poll_states line gaps n) k = Some s ->
    exists gaps',
      forall i, nth_error (poll_states line gaps n) (S k + i) =
                nth_error (poll_states line gaps'
                             (snd (checkTrapTriggered line s))) i.
Proof.
  induction gaps as [|g gaps IH]; intros n k s H; [destruct k; discriminate|].
  cbn [poll_states] in *. destruct k as [|k]; cbn [nth_error] in H.
  - injection H as <-. exists gaps. intros i. reflexivity.
  - destruct (IH _ k s H) as (gaps' & Hg). exists gaps'. intros i.
    cbn [Nat.add nth_error]. apply (Hg i).
Qed.

(** Between two answers of [true], the polls have read the line open for
    more than [DEBOUNCE_MS]. *)
Lemma reopened_between gaps n k1 k2 s1 s2 :
  (k1 < k2)%nat ->
  nth_error (poll_states line gaps n) k1 = Some s1 ->
  nth_error (poll_states line gaps n) k2 = Some s2 ->
  fst (checkTrapTriggered line s1) = true ->
  fst (checkTrapTriggered line s2) = true ->
  exists j1 j2 x1 x2,
    (k1 < j1 < j2)%nat /\ (j2 < k2)%nat /\
    nth_error (poll_states line gaps n) j1 = Some x1 /\
    nth_error (poll_states line gaps n) j2 = Some x2 /\
    DEBOUNCE_MS < clock x2 - clock x1 /\
    forall i x, (j1 <= i <= j2)%nat ->
                nth_error (poll_states line gaps n) i = Some x ->
                digitalRead line x = HIGH.
Proof.
  intros Hk H1 H2 Ht1 Ht2.
  destruct (poll_states_after _ _ _ _ H1) as (gaps' & Hafter).
  set (m := snd (checkTrapTriggered line s1)) in *.
  destruct (checkTrapTriggered_spec line s1) as (_ & Hdeb & _).
  fold m in Hdeb.
  destruct (triggered_inv _ _ Ht1) as (Hs1 & Hl1 & _ & _).
  rewrite Hs1, Hl1 in Hdeb.
  assert (H2' : nth_error (poll_states line gaps' m) (k2 - S k1) = Some s2).
  { rewrite <- Hafter. replace (S k1 + (k2 - S k1))%nat with k2 by lia.
    exact H2. }
  destruct (triggered_after_open _ _ _ _ H2' Ht2) as (j & sj & Hj & Hnj & Hsj & Hhj).
  { rewrite Hdeb. reflexivity. }
  destruct (settled_run _ _ _ _ Hnj Hsj) as [(i0 & x0 & Hi0 & Hn0 & Ht & Hall)|(Hl & _)].
  - exists (S k1 + i0)%nat, (S k1 + j)%nat, x0, sj.
    rewrite !Hafter. repeat split; try lia; auto.
    intros i x Hi Hx. rewrite <- Hhj.
    apply (Hall (i - S k1)%nat x); [lia|].
    rewrite <- Hafter. replace (S k1 + (i - S k1))%nat with i by lia.
    exact Hx.
  - rewrite Hdeb in Hl. cbn in Hl. congruence.
Qed.

End Polling.

Lemma poll_nth line gaps n k p :
  nth_error (poll line gaps n) k = Some p ->
  exists s, nth_error (poll_states line gaps n) k = Some s /\
            p = observe line s.
Proof.
  unfold poll. rewrite nth_error_map.
  destruct (nth_error (poll_states line gaps n) k) as [s|]; [|discriminate].
  cbn. intros H. injection H as <-. eauto.
Qed.

Lemma poll_nth_of line gaps n k s :
  nth_error (poll_states line gaps n) k = Some s ->
  nth_error (poll line gaps n) k = Some (observe line s).
Proof. unfold poll. rewrite nth_error_map. intros ->. reflexivity. Qed.

(** C8. The detector, polled from a freshly woken node at any pace, over
    any behaviour of the reed line.
    - It answers [true] only on a poll that reads the line closed, when the
      polls have read it closed, one and all, for more than [DEBOUNCE_MS],
      and when the line still reads closed [TRIGGER_STABLE_MS] later.
    - Between two answers of [true] the polls have read the line open, one
      and all, for more than [DEBOUNCE_MS]: the detector does not answer
      again before the line has gone back to open.
    - So when, after an answer of [true], no stretch of polls reading open
      lasts more than [DEBOUNCE_MS] -- nothing but bounce -- there is no
      second answer: one closing of the trap is signalled at most once. *)
Theorem detector_signals (line : Z -> Level) (gaps : list nat) (r : Rtc) :
  (forall k p,
     nth_error (poll line gaps (boot r)) k = Some p ->
     poll_triggered p = true ->
     poll_reading p = LOW /\
     line (poll_time p + TRIGGER_STABLE_MS) = LOW /\
     exists j q,
       (j < k)%nat /\ nth_error (poll line gaps (boot r)) j = Some q /\
       DEBOUNCE_MS < poll_time p - poll_time q /\
       forall i x, (j <= i <= k)%nat ->
                   nth_error (poll line gaps (boot r)) i = Some x ->
                   poll_reading x = LOW) /\
  (forall k1 k2 p1 p2,
     (k1 < k2)%nat ->
     nth_error (poll line gaps (boot r)) k1 = Some p1 ->
     nth_error (poll line gaps (boot r)) k2 = Some p2 ->
     poll_triggered p1 = true -> poll_triggered p2 = true ->
     exists j1 j2 q1 q2,
       (k1 < j1 < j2)%nat /\ (j2 < k2)%nat /\
       nth_error (poll line gaps (boot r)) j1 = Some q1 /\
       nth_error (poll line gaps (boot r)) j2 = Some q2 /\
       DEBOUNCE_MS < poll_time q2 - poll_time q1 /\
       forall i x, (j1 <= i <= j2)%nat ->
                   nth_error (poll line gaps (boot r)) i = Some x ->
                   poll_reading x = HIGH) /\
  (forall k1 k2 p1 p2,
     (k1 < k2)%nat ->
     nth_error (poll line gaps (boot r)) k1 = Some p1 ->
     nth_error (poll line gaps (boot r)) k2 = Some p2 ->
     poll_triggered p1 = true ->
     (forall j1 j2 q1 q2,
        (k1 < j1 <= j2)%nat -> (j2 < k2)%nat ->
        nth_error (poll line gaps (boot r)) j1 = Some q1 ->
        nth_error (poll line gaps (boot r)) j2 = Some q2 ->
        (forall i x, (j1 <= i <= j2)%nat ->
                     nth_error (poll line gaps (boot r)) i = Some x ->
                     poll_reading x = HIGH) ->
        poll_time q2 - poll_time q1 <= DEBOUNCE_MS) ->
     poll_triggered p2 = false).
Proof.
  assert (Hobs : forall i x,
    nth_error (poll line gaps (boot r)) i = Some x ->
    exists s, nth_error (poll_states line gaps (boot r)) i = Some s /\
              poll_reading x = digitalRead line s /\
              poll_time x = clock s /\
              poll_triggered x = fst (checkTrapTriggered line s)).
  { intros i x Hx. apply poll_nth in Hx. destruct Hx as (s & Hs & ->).
    exists s. auto. }
  assert (Hbetween : forall k1 k2 p1 p2,
     (k1 < k2)%nat ->
     nth_error (poll line gaps (boot r)) k1 = Some p1 ->
     nth_error (poll line gaps (boot r)) k2 = Some p2 ->
     poll_triggered p1 = true -> poll_triggered p2 = true ->
     exists j1 j2 q1 q2,
       (k1 < j1 < j2)%nat /\ (j2 < k2)%nat /\
       nth_error (poll line gaps (boot r)) j1 = Some q1 /\
       nth_error (poll line gaps (boot r)) j2 = Some q2 /\
       DEBOUNCE_MS < poll_time q2 - poll_time q1 /\
       forall i x, (j1 <= i <= j2)%nat ->
                   nth_error (poll line gaps (boot r)) i = Some x ->
                   poll_reading x = HIGH).
  { intros k1 k2 p1 p2 Hk H1 H2 Ht1 Ht2.
    destruct (Hobs _ _ H1) as (s1 & Hs1 & _ & _ & E1).
    destruct (Hobs _ _ H2) as (s2 & Hs2 & _ & _ & E2).
    rewrite E1 in Ht1. rewrite E2 in Ht2.
    destruct (reopened_between line gaps (boot r) k1 k2 s1 s2 Hk Hs1 Hs2 Ht1 Ht2)
      as (j1 & j2 & x1 & x2 & Hj1 & Hj2 & Hn1 & Hn2 & Hd & Hall).
    exists j1, j2, (observe line x1), (observe line x2).
    repeat split; try lia; try (apply poll_nth_of; assumption).
    - exact Hd.
    - intros i x Hi Hx. destruct (Hobs _ _ Hx) as (s & Hs & -> & _).
      apply (Hall i s Hi Hs). }
  split; [|split].
  - intros k p Hp Ht.
    destruct (Hobs _ _ Hp) as (s & Hs & Er & Etm & Etr).
    rewrite Etr in Ht. rewrite Er, Etm.
    destruct (triggered_inv _ _ Ht) as (Hset & Hl & _ & Hw).
    split; [exact Hl|]. split; [exact Hw|].
    destruct (settled_run line gaps (boot r) k s Hs Hset)
      as [(j & sj & Hj & Hnj & Hd & Hall)|(Hlast & _)].
    + exists j, (observe line sj). repeat split; auto.
      * apply poll_nth_of. exact Hnj.
      * intros i x Hi Hx. destruct (Hobs _ _ Hx) as (s' & Hs' & -> & _).
        rewrite <- Hl. apply (Hall i s' Hi Hs').
    + cbn in Hlast. congruence.
  - exact Hbetween.
  - intros k1 k2 p1 p2 Hk H1 H2 Ht1 Hbounce.
    destruct (poll_triggered p2) eqn:Ht2; [|reflexivity].
    destruct (Hbetween k1 k2 p1 p2 Hk H1 H2 Ht1 Ht2)
      as (j1 & j2 & q1 & q2 & Hj1 & Hj2 & Hn1 & Hn2 & Hd & Hall).
    specialize (Hbounce j1 j2 q1 q2 ltac:(lia) Hj2 Hn1 Hn2 Hall). lia.
Qed.

(** The sample line, polled every 100 ms: the detector answers at the
    eleventh poll and, the trap having been reset and closed again, at the
    forty-ninth. *)
Lemma detector_signals_witness :
  (poll_reading (mkPoll 1100 LOW true) = LOW /\
   sample_line (poll_time (mkPoll 1100 LOW true) + TRIGGER_STABLE_MS) = LOW /\
   exists j q,
     (j < 10)%nat /\
     nth_error (poll sample_line sample_gaps (boot power_on)) j = Some q /\
     DEBOUNCE_MS < poll_time (mkPoll 1100 LOW true) - poll_time q /\
     forall i x, (j <= i <= 10)%nat ->
                 nth_error (poll sample_line sample_gaps (boot power_on)) i
                 = Some x ->
                 poll_reading x = LOW) /\
  (exists j1 j2 q1 q2,
     (10 < j1 < j2)%nat /\ (j2 < 48)%nat /\
     nth_error (poll sample_line sample_gaps (boot power_on)) j1 = Some q1 /\
     nth_error (poll sample_line sample_gaps (boot power_on)) j2 = Some q2 /\
     DEBOUNCE_MS < poll_time q2 - poll_time q1 /\
     forall i x, (j1 <= i <= j2)%nat ->
                 nth_error (poll sample_line sample_gaps (boot power_on)) i
                 = Some x ->
                 poll_reading x = HIGH).
Proof.
  destruct (detector_signals sample_line sample_gaps power_on)
    as (Hfirst & Hbetween & _).
  split.
  - apply (Hfirst 10%nat (mkPoll 1100 LOW true)).
    + vm_compute. reflexivity.
    + reflexivity.
  - apply (Hbetween 10%nat 48%nat (mkPoll 1100 LOW true)
             (mkPoll 5100 LOW true)).
    + lia.
    + vm_compute. reflexivity.
    + vm_compute. reflexivity.
    + reflexivity.
    + reflexivity.
Defined.

End NodeSpec.

(** ** The gateway *)

Module GatewaySpec.
Import Codec Gateway.

(** *** Text *)

Lemma substring_whole (s : string) :
  forall n, (String.length s <= n)%nat -> substring 0 n s = s.
Proof.
  induction s as [|c s IH]; intros n H.
  - destruct n; reflexivity.
  - destruct n as [|n]; cbn in H; [lia|].
    cbn. rewrite IH by lia. reflexivity.
Qed.

(** The buffer of 64 holds the topic of every node number a [uint8_t] can
    take. *)
Lemma topic_fits (id : Z) (name : string) :
  is_u8 id -> In name event_names ->
  snprintf 64 (topic_text id name) = topic_text id name.
Proof.
  intros Hid Hname. unfold snprintf. apply substring_whole.
  assert (Hall : forallb (fun n =>
            forallb (fun nm =>
              Nat.leb (String.length (topic_text (Z.of_nat n) nm)) 63)
              event_names) (seq 0 256) = true) by (vm_compute; reflexivity).
  unfold is_u8 in Hid. change (2 ^ 8) with 256 in Hid.
  assert (Hin : In (Z.to_nat id) (seq 0 256)) by (apply in_seq; lia).
  rewrite forallb_forall in Hall. specialize (Hall _ Hin).
  rewrite forallb_forall in Hall. specialize (Hall name Hname).
  apply Nat.leb_le in Hall. rewrite Z2Nat.id in Hall by lia. exact Hall.
Qed.

Lemma eventTypeStr_names (e : Z) : In (eventTypeStr e) event_names.
Proof.
  unfold eventTypeStr, event_names.
  destruct e as [|[p|[p|p|]|]|p]; cbn; tauto.
Qed.



Lemma topic_of_text (msg : TrapMessage float32) :
  is_u8 (node_id msg) ->
  topic_of msg = topic_text (node_id msg) (eventTypeStr (event_type msg)).
Proof.
  intros H. unfold topic_of. apply topic_fits; [exact H|].
  apply eventTypeStr_names.
Qed.

(** The gateway address of the node sketch, as [forwardToMQTT] prints an
    address. *)
Example format_mac_sample : format_mac sample_mac = "24:0A:C4:12:34:56"%string.
Proof. vm_compute. reflexivity. Qed.

(** *** Reconnection *)

Lemma failed_attempts_S k :
  failed_attempts (S k) =
  Connect false :: Delay RETRY_DELAY_MS :: failed_attempts k.
Proof. reflexivity. Qed.

(** The loop run for at most [left] attempts from a disconnected state:
    either all of them fail, a delay after each, or the first [k < left]
    fail and the next succeeds and is followed by the online announcement
    and nothing more. *)
Lemma reconnect_loop_spec (br : Broker) (left : nat) :
  forall s,
    connected s = false ->
    let s' := reconnect_loop left br s in
    messagesReceived s' = messagesReceived s /\
    messagesForwarded s' = messagesForwarded s /\
    exists k,
      (k <= left)%nat /\
      (forall i, (i < k)%nat -> connect_ok br (connects s + i) = false) /\
      clock s' = clock s + RETRY_DELAY_MS * Z.of_nat k /\
      ((k = left /\ connected s' = false /\
        publishes s' = publishes s /\
        log s' = log s ++ failed_attempts left)
       \/
       ((k < left)%nat /\ connect_ok br (connects s + k) = true /\
        connected s' = true /\
        publishes s' = S (publishes s) /\
        log s' = log s ++ failed_attempts k ++
                 [Connect true;
                  Publish gateway_status_topic (Text online_payload)
                          (publish_ok br (publishes s))])).
Proof.
  induction left as [|left IH]; intros s Hc; cbv zeta.
  - cbn [reconnect_loop]. split; [reflexivity|]. split; [reflexivity|].
    exists 0%nat. split; [lia|]. split; [intros; lia|]. split; [lia|].
    left. split; [reflexivity|]. split; [exact Hc|]. split; [reflexivity|].
    cbn. symmetry. apply app_nil_r.
  - cbn [reconnect_loop]. rewrite Hc.
    change (connected (mqtt_connect br s)) with (connect_ok br (connects s)).
    destruct (connect_ok br (connects s)) eqn:Eok.
    + cbn -[Z.mul]. rewrite Eok. cbn [andb]. split; [reflexivity|]. split; [reflexivity|].
      exists 0%nat. rewrite Nat.add_0_r.
      split; [lia|]. split; [intros; lia|]. split; [lia|].
      right. split; [lia|]. split; [exact Eok|]. split; [reflexivity|].
      split; [reflexivity|].
      rewrite <- app_assoc. reflexivity.
    + set (s1 := delay RETRY_DELAY_MS (mqtt_connect br s)).
      destruct (IH s1) as (Hr & Hf & k & Hk & Hfail & Hclk & Hend).
      { cbn. exact Eok. }
      assert (Hlog1 : log s1 = log s ++ [Connect false; Delay RETRY_DELAY_MS]).
      { cbn. rewrite Eok, <- app_assoc. reflexivity. }
      split; [rewrite Hr; reflexivity|]. split; [rewrite Hf; reflexivity|].
      exists (S k). split; [lia|]. split.
      { intros i Hi. destruct i as [|i].
        - rewrite Nat.add_0_r. exact Eok.
        - replace (connects s + S i)%nat with (connects s1 + i)%nat
            by (cbn; lia).
          apply Hfail. lia. }
      split.
      { rewrite Hclk. cbn [s1 delay mqtt_connect clock]. lia. }
      destruct Hend as [(-> & Hcon & Hp & Hl)|(Hlt & Hok & Hcon & Hp & Hl)].
      * left. repeat split; auto. rewrite Hl, Hlog1, failed_attempts_S.
        rewrite <- app_assoc. reflexivity.
      * right. split; [lia|]. split.
        { replace (connects s + S k)%nat with (connects s1 + k)%nat
            by (cbn; lia). exact Hok. }
        split; [exact Hcon|]. split; [exact Hp|].
        rewrite Hl, Hlog1, failed_attempts_S, <- app_assoc. reflexivity.
Qed.

Lemma attempts_of_app l1 l2 :
  attempts_of (l1 ++ l2) = attempts_of l1 ++ attempts_of l2.
Proof. unfold attempts_of. apply flat_map_app. Qed.

Lemma attempts_of_failed k : attempts_of (failed_attempts k) = repeat false k.
Proof.
  induction k as [|k IH]; [reflexivity|].
  rewrite failed_attempts_S. cbn. f_equal. exact IH.
Qed.

(** C9. Called while disconnected, [reconnectMQTT] makes at most five
    connection attempts.  Either the first [k < 5] fail and the next one
    succeeds: the routine then announces itself online and returns, with no
    further attempt; or all five fail and it returns disconnected.  A delay
    of 5000 ms follows every failed attempt, and nothing else separates two
    attempts. *)
Theorem reconnectMQTT_bounded (br : Broker) (s : State) :
  connected s = false ->
  exists k ok,
    (k <= 5)%nat /\
    (forall i, (i < k)%nat -> connect_ok br (connects s + i) = false) /\
    List.length (attempts_of (log (reconnectMQTT br s)))
      = (List.length (attempts_of (log s)) + (if k <? 5 then S k else 5))%nat /\
    ((k = 5%nat /\
      connected (reconnectMQTT br s) = false /\
      log (reconnectMQTT br s) =
        log s ++ List.concat (repeat [Connect false; Delay 5000] 5))
     \/
     ((k < 5)%nat /\
      connect_ok br (connects s + k) = true /\
      connected (reconnectMQTT br s) = true /\
      log (reconnectMQTT br s) =
        log s ++ List.concat (repeat [Connect false; Delay 5000] k)
              ++ [Connect true;
                  Publish gateway_status_topic (Text online_payload) ok])).
Proof.
  intros Hc. unfold reconnectMQTT, MAX_ATTEMPTS.
  destruct (reconnect_loop_spec br 5 s Hc) as (_ & _ & k & Hk & Hfail & _ & Hend).
  exists k, (publish_ok br (publishes s)).
  split; [exact Hk|]. split; [exact Hfail|].
  destruct Hend as [(-> & Hcon & _ & Hl)|(Hlt & Hok & Hcon & _ & Hl)].
  - split.
    + rewrite Hl, attempts_of_app, attempts_of_failed, length_app, repeat_length.
      reflexivity.
    + left. repeat split; auto.
  - split.
    + rewrite Hl, !attempts_of_app, attempts_of_failed, !length_app,
        repeat_length.
      apply Nat.ltb_lt in Hlt. rewrite Hlt. cbn. lia.
    + right. repeat split; auto.
Qed.

(** A broker that refuses twice and then accepts. *)
Lemma reconnectMQTT_bounded_witness :
  exists k ok,
    (k <= 5)%nat /\
    (forall i, (i < k)%nat ->
       Nat.leb 3 (connects (sample_state false) + i) = false) /\
    List.length (attempts_of (log (reconnectMQTT
       (mkBroker (Nat.leb 3) (fun _ => true)) (sample_state false))))
      = (0 + (if k <? 5 then S k else 5))%nat /\
    ((k = 5%nat /\
      connected (reconnectMQTT (mkBroker (Nat.leb 3) (fun _ => true))
                   (sample_state false)) = false /\
      log (reconnectMQTT (mkBroker (Nat.leb 3) (fun _ => true))
             (sample_state false)) =
        [] ++ List.concat (repeat [Connect false; Delay 5000] 5))
     \/
     ((k < 5)%nat /\
      Nat.leb 3 (connects (sample_state false) + k) = true /\
      connected (reconnectMQTT (mkBroker (Nat.leb 3) (fun _ => true))
                   (sample_state false)) = true /\
      log (reconnectMQTT (mkBroker (Nat.leb 3) (fun _ => true))
             (sample_state false)) =
        [] ++ List.concat (repeat [Connect false; Delay 5000] k)
           ++ [Connect true;
               Publish gateway_status_topic (Text online_payload) ok])).
Proof.
  apply (reconnectMQTT_bounded (mkBroker (Nat.leb 3) (fun _ => true))
           (sample_state false)).
  reflexivity.
Defined.

(** *** Receiving and forwarding *)

Lemma forwardToMQTT_connected br msg mac s :
  connected s = true ->
  forwardToMQTT br msg mac s =
  {| messagesReceived := messagesReceived s;
     messagesForwarded :=
       if publish_ok br (publishes s)
       then wrap32 (messagesForwarded s + 1) else messagesForwarded s;
     connected := true;
     clock := clock s;
     connects := connects s;
     publishes := S (publishes s);
     log := log s ++ [Publish (topic_of msg)
                              (Json (doc_of msg mac (millis s)))
                              (publish_ok br (publishes s))] |}.
Proof.
  intros Hc. unfold forwardToMQTT. rewrite Hc. cbn [negb].
  rewrite Hc. cbn [negb]. unfold mqtt_publish. rewrite Hc. cbn [andb].
  destruct (publish_ok br (publishes s)); reflexivity.
Qed.



Lemma onDataReceive_decoded br mac data msg s :
  decode data = Some msg ->
  onDataReceive br mac data s =
  forwardToMQTT br msg mac (inc_messagesReceived (delay 50 s)).
Proof. intros H. unfold onDataReceive. rewrite H. reflexivity. Qed.

Lemma onDataReceive_rejected br mac data s :
  decode data = None ->
  onDataReceive br mac data s = inc_messagesReceived (delay 50 s).
Proof. intros H. unfold onDataReceive. rewrite H. reflexivity. Qed.











End GatewaySpec.

(** * Further properties *)

(** ** The frame, read the other way *)

Module CodecExtra.
Import Codec.

Lemma byte_of_Z_of_byte (z : Z) (b : byte) :
  z mod 256 = Z_of_byte b -> byte_of_Z z = b.
Proof.
  intros H. unfold byte_of_Z. rewrite H. unfold Z_of_byte.
  rewrite N2Z.id, Byte.of_to_N. reflexivity.
Qed.

Lemma le32_un_le32 (b0 b1 b2 b3 : byte) :
  le32 (un_le32 b0 b1 b2 b3) = [b0; b1; b2; b3].
Proof.
  unfold le32, un_le32.
  pose proof (Z_of_byte_range b0). pose proof (Z_of_byte_range b1).
  pose proof (Z_of_byte_range b2). pose proof (Z_of_byte_range b3).
  change (2 ^ 8) with 256. change (2 ^ 16) with 65536.
  change (2 ^ 24) with 16777216.
  repeat f_equal; apply byte_of_Z_of_byte;
    Z.to_euclidean_division_equations; lia.
Qed.

(** X1. Decoding loses nothing but the padding: a frame that is accepted is,
    byte for byte, the image of the message it decodes to together with its
    own padding bytes, and that message holds values of its C types. *)
Theorem decode_then_encode (data : list byte) (m : TrapMessage float32) :
  decode data = Some m ->
  encode (padding_of data) m = data /\ well_typed m.
Proof.
  intros H. split; [|exact (CodecSpec.decode_well_typed data m H)].
  unfold decode in H.
  destruct (Z.eqb_spec (Z.of_nat (List.length data)) sizeof_TrapMessage)
    as [Hlen|]; [|discriminate].
  injection H as <-. unfold sizeof_TrapMessage in Hlen.
  do 20 (destruct data as [|? data]; [cbn in Hlen; lia|]).
  destruct data; [|cbn in Hlen; lia].
  unfold encode, memcpy_msg, padding_of.
  cbn [nth node_id event_type trap_count battery_voltage route_hops
       timestamp pad2 pad3 pad13 pad14 pad15].
  rewrite !le32_un_le32.
  rewrite !(byte_of_Z_of_byte (Z_of_byte _) _)
    by (apply Z.mod_small; apply Z_of_byte_range).
  reflexivity.
Qed.

(** A frame of twenty bytes counting up from 1. *)
Lemma decode_then_encode_witness :
  encode (padding_of (map byte_of_Z
            [1; 2; 3; 4; 5; 6; 7; 8; 9; 10;
             11; 12; 13; 14; 15; 16; 17; 18; 19; 20]))
         (memcpy_msg (map byte_of_Z
            [1; 2; 3; 4; 5; 6; 7; 8; 9; 10;
             11; 12; 13; 14; 15; 16; 17; 18; 19; 20]))
    = map byte_of_Z [1; 2; 3; 4; 5; 6; 7; 8; 9; 10;
                     11; 12; 13; 14; 15; 16; 17; 18; 19; 20] /\
  well_typed (memcpy_msg (map byte_of_Z
            [1; 2; 3; 4; 5; 6; 7; 8; 9; 10;
             11; 12; 13; 14; 15; 16; 17; 18; 19; 20])).
Proof.
  apply (decode_then_encode
           (map byte_of_Z [1; 2; 3; 4; 5; 6; 7; 8; 9; 10;
                           11; 12; 13; 14; 15; 16; 17; 18; 19; 20])).
  vm_compute. reflexivity.
Defined.

End CodecExtra.

(** ** The node, further *)

Module NodeExtra.
Import Codec Node NodeSpec.

(** *** Battery monitoring *)

(** X2. The low battery test in terms of the ADC: the computed voltage is below
    [LOW_BATTERY_THRESHOLD] exactly for readings up to 2047, half of full
    scale; and over the 12-bit range of the converter it lies between 0 and
    6.6 V. *)
Theorem low_battery_readings (rawValue : Z) :
  Qltb (readBatteryVoltage rawValue) LOW_BATTERY_THRESHOLD
    = (rawValue <=? 2047) /\
  (0 <= rawValue <= 4095 ->
   (0 <= readBatteryVoltage rawValue)%Q /\
   (readBatteryVoltage rawValue <= 66 # 10)%Q).
Proof.
  unfold Qltb, readBatteryVoltage, LOW_BATTERY_THRESHOLD, Qle_bool, Qle.
  cbn -[Z.mul Z.leb Z.le]. split.
  - destruct (Z.leb_spec rawValue 2047) as [H|H];
      destruct (Z.leb_spec (33 * 40950) (rawValue * 1 * 33 * 2 * 10));
      cbn [negb]; try reflexivity; lia.
  - intros H. split; lia.
Qed.

Lemma low_battery_readings_witness :
  Qltb (readBatteryVoltage 2047) LOW_BATTERY_THRESHOLD = (2047 <=? 2047) /\
  (0 <= 2047 <= 4095 ->
   (0 <= readBatteryVoltage 2047)%Q /\
   (readBatteryVoltage 2047 <= 66 # 10)%Q).
Proof. apply (low_battery_readings 2047). Defined.

(** *** Delays *)

(** With no callback outstanding a [delay] only moves the clock. *)
Lemma delay_quiet d n :
  pending n = [] -> delay d n = set_clock (clock n + d) n.
Proof.
  intros H. unfold delay. rewrite H. cbn.
  unfold set_pending, set_clock. cbn. rewrite H. reflexivity.
Qed.

Lemma blinkLED_loop_clock times delayMs :
  forall n,
    clock (blinkLED_loop times delayMs n)
    = clock n + 2 * Z.of_nat times * delayMs.
Proof.
  induction times as [|times IH]; intros n.
  - cbn [blinkLED_loop]. lia.
  - cbn [blinkLED_loop]. rewrite IH, !delay_clock. lia.
Qed.



(** *** Message sending, further *)

(** The frame a call of [sendMessage] hands to the radio. *)
Lemma sendMessage_frame fuel raw ok cb ev n b n' :
  sendMessage fuel raw ok cb ev n = Some (b, n') ->
  rtc n' = rtc n /\ deb n' = deb n /\
  radio n' =
    radio n ++ [({| node_id := NODE_ID; event_type := ev;
                    trap_count := trapCount (rtc n);
                    battery_voltage := readBatteryVoltage raw;
                    route_hops := 0; timestamp := millis n |}, ok)].
Proof.
  unfold sendMessage.
  set (msg := mkTrapMessage _ _ _ _ _ _).
  set (n2 := esp_now_send ok cb msg _).
  assert (H2 : rtc n2 = rtc n /\ deb n2 = deb n /\
               radio n2 = radio n ++ [(msg, ok)]).
  { unfold n2, esp_now_send. destruct ok, cb; auto. }
  destruct H2 as (Hr & Hd & Hra).
  destruct ok.
  - destruct (await_confirmation fuel (millis n2) n2) as [n3|] eqn:E;
      [|discriminate].
    intros H. injection H as _ <-.
    apply await_confirmation_frame in E. destruct E as (Er & Era & Ed).
    rewrite Er, Ed, Era, Hr, Hd, Hra. auto.
  - intros H. injection H as _ <-. auto.
Qed.

(** The wait ends no later than 10 ms after a callback has run. *)
Lemma await_confirmation_prompt fuel :
  forall start n n' due,
    await_confirmation fuel start n = Some n' ->
    In due (pending n) -> clock n <= due ->
    clock n' = clock n \/ clock n' <= due + 10.
Proof.
  induction fuel as [|fuel IH]; intros start n n' due E Hin Hle;
    [discriminate|].
  cbn [await_confirmation] in E.
  destruct (negb (messageSent n) && _).
  - destruct (due_by (clock n + 10) due) eqn:Hdue.
    + (* the callback runs during this delay *)
      assert (Hm : messageSent (delay 10 n) = true).
      { rewrite delay_messageSent. apply orb_true_iff. right.
        apply existsb_exists. exists due. auto. }
      destruct fuel as [|fuel]; [discriminate|].
      cbn [await_confirmation] in E. rewrite Hm in E. cbn in E.
      injection E as <-. rewrite delay_clock. right. lia.
    + assert (Hin' : In due (pending (delay 10 n))).
      { rewrite delay_pending. apply filter_In. split; [exact Hin|].
        rewrite Hdue. reflexivity. }
      unfold due_by in Hdue. apply Z.leb_gt in Hdue.
      destruct (IH _ _ _ due E Hin') as [H|H].
      * rewrite delay_clock. lia.
      * rewrite delay_clock in H. right. lia.
      * right. lia.
  - injection E as <-. left. reflexivity.
Qed.

(** X4. [sendMessage] never holds the node for more than the 1000 ms of its
    wait, and returns at once when [esp_now_send] fails.  On a node with no
    callback outstanding, a frame confirmed [c] ms after the call is waited
    for at most [c + 10] ms. *)
Theorem sendMessage_duration
    (fuel : nat) (raw : Z) (ok : bool) (cb : option Z) (ev : Z) (n : State) :
  (101 <= fuel)%nat ->
  exists b n',
    sendMessage fuel raw ok cb ev n = Some (b, n') /\
    clock n <= clock n' <= clock n + SEND_WAIT_MS /\
    (ok = false -> clock n' = clock n) /\
    (forall c, ok = true -> pending n = [] -> cb = Some c -> 0 <= c ->
               clock n' <= clock n + c + 10).
Proof.
  intros Hfuel. unfold sendMessage.
  set (msg := mkTrapMessage _ _ _ _ _ _).
  destruct ok.
  - set (n2 := esp_now_send true cb msg (set_messageSent false n)).
    assert (Hc : clock n2 = clock n)
      by exact (esp_now_send_clock true cb msg (set_messageSent false n)).
    assert (Hp : pending n2 = pending n ++
               match cb with Some c => [clock n + c] | None => [] end)
      by exact (esp_now_send_pending cb msg (set_messageSent false n)).
    destruct (await_confirmation_spec fuel 0 (clock n) n2)
      as (n3 & E & _ & _ & _ & _ & Hclk); try lia.
    unfold millis. rewrite Hc. rewrite E.
    exists (messageSent n3), n3. rewrite Hc in Hclk.
    split; [reflexivity|]. split; [exact Hclk|].
    split; [discriminate|].
    intros c _ Hnil -> Hc0.
    rewrite Hnil in Hp. cbn [app] in Hp.
    destruct (await_confirmation_prompt fuel (wrap32 (clock n)) n2 n3
                (clock n + c) E) as [H|H].
    + rewrite Hp. left. reflexivity.
    + lia.
    + lia.
    + lia.
  - eexists false, _. split; [reflexivity|].
    cbn. unfold SEND_WAIT_MS. split; [lia|]. split; [reflexivity|]. intros; lia.
Qed.

(** A frame accepted by the driver and confirmed after 30 ms. *)
Lemma sendMessage_duration_witness :
  exists b n',
    sendMessage 101 2400 true (Some 30) STATUS (boot power_on)
      = Some (b, n') /\
    clock (boot power_on) <= clock n'
      <= clock (boot power_on) + SEND_WAIT_MS /\
    (true = false -> clock n' = clock (boot power_on)) /\
    (forall c, true = true -> pending (boot power_on) = [] ->
               Some 30 = Some c -> 0 <= c ->
               clock n' <= clock (boot power_on) + c + 10).
Proof.
  apply (sendMessage_duration 101 2400 true (Some 30) STATUS (boot power_on)).
  lia.
Defined.

Lemma await_confirmation_clock fuel :
  forall start n n',
    await_confirmation fuel start n = Some n' -> clock n <= clock n'.
Proof.
  induction fuel as [|fuel IH]; intros start n n' E; [discriminate|].
  cbn [await_confirmation] in E.
  destruct (negb (messageSent n) && _).
  - apply IH in E. rewrite delay_clock in E. lia.
  - injection E as <-. lia.
Qed.

Lemma sendMessage_clock fuel raw ok cb ev n b n' :
  sendMessage fuel raw ok cb ev n = Some (b, n') -> clock n <= clock n'.
Proof.
  unfold sendMessage.
  set (msg := mkTrapMessage _ _ _ _ _ _).
  set (n2 := esp_now_send ok cb msg _).
  assert (Hc : clock n2 = clock n)
    by exact (esp_now_send_clock ok cb msg (set_messageSent false n)).
  destruct ok.
  - destruct (await_confirmation fuel (millis n2) n2) as [n3|] eqn:E;
      [|discriminate].
    intros H. injection H as _ <-.
    apply await_confirmation_clock in E. lia.
  - intros H. injection H as _ <-. lia.
Qed.

(** *** The reed switch monitor, further *)

(** X5. The detector cannot answer [true] on the strength of a single reading:
    not on the first call after a wake, not on the first call that reads
    the line closed, and not while [reedState] is already [LOW]. *)
Theorem detector_needs_two_polls (line : Z -> Level) (n : State) :
  lastReedState (deb n) = HIGH \/ reedState (deb n) = LOW ->
  fst (checkTrapTriggered line n) = false.
Proof.
  intros H. destruct (fst (checkTrapTriggered line n)) eqn:E; [|reflexivity].
  destruct (triggered_inv line n E) as (Hs & Hl & Hr & _).
  destruct (settled_same line n Hs) as (Hsame & _).
  destruct H as [H|H]; congruence.
Qed.

(** The call [setup] makes, on a node that woke 400 ms ago to a closed
    trap. *)
Lemma detector_needs_two_polls_witness :
  fst (checkTrapTriggered (fun _ => LOW) (delay 400 (boot power_on))) = false.
Proof.
  apply (detector_needs_two_polls (fun _ => LOW) (delay 400 (boot power_on))).
  left. reflexivity.
Defined.

(** X6. A closing whose stability check fails is lost.  When the line has
    settled closed but reads open again [TRIGGER_STABLE_MS] later, the call
    answers [false] and yet records the line as closed; from then on, for as
    long as the polls read the line closed, no call answers [true]. *)
Theorem failed_recheck_loses_closing
    (line : Z -> Level) (gaps : list nat) (n : State) :
  settled line n = true ->
  digitalRead line n = LOW ->
  reedState (deb n) = HIGH ->
  line (clock n + TRIGGER_STABLE_MS) = HIGH ->
  fst (checkTrapTriggered line n) = false /\
  reedState (deb (snd (checkTrapTriggered line n))) = LOW /\
  forall k p,
    nth_error (poll line gaps (snd (checkTrapTriggered line n))) k = Some p ->
    (forall i x, (i < k)%nat ->
       nth_error (poll line gaps (snd (checkTrapTriggered line n))) i
         = Some x ->
       poll_reading x = LOW) ->
    poll_triggered p = false.
Proof.
  intros Hs Hl Hr Hw.
  destruct (checkTrapTriggered_spec line n) as (Hfst & Hdeb & _).
  assert (Hlow : reedState (deb (snd (checkTrapTriggered line n))) = LOW).
  { rewrite Hdeb. cbn [reedState]. rewrite Hs. exact Hl. }
  split; [|split; [exact Hlow|]].
  - rewrite Hfst, Hw. cbn [Level_eqb]. apply andb_false_r.
  - intros k p Hp Hall.
    destruct (poll_triggered p) eqn:Ht; [|reflexivity]. exfalso.
    apply poll_nth in Hp. destruct Hp as (s & Hns & ->).
    cbn [observe poll_triggered] in Ht.
    destruct (triggered_after_open line gaps _ k s Hns Ht Hlow)
      as (j & sj & Hj & Hnj & _ & Hhigh).
    specialize (Hall j (observe line sj) Hj (poll_nth_of _ _ _ _ _ Hnj)).
    cbn [observe poll_reading] in Hall. congruence.
Qed.

(** The line bounces open just when the stability check looks at it, and
    stays closed afterwards. *)
Lemma failed_recheck_loses_closing_witness :
  fst (checkTrapTriggered bouncing_line sample_closing) = false /\
  reedState (deb (snd (checkTrapTriggered bouncing_line sample_closing)))
    = LOW /\
  forall k p,
    nth_error (poll bouncing_line sample_gaps
                 (snd (checkTrapTriggered bouncing_line sample_closing))) k
      = Some p ->
    (forall i x, (i < k)%nat ->
       nth_error (poll bouncing_line sample_gaps
                    (snd (checkTrapTriggered bouncing_line sample_closing))) i
         = Some x ->
       poll_reading x = LOW) ->
    poll_triggered p = false.
Proof.
  apply (failed_recheck_loses_closing bouncing_line sample_gaps
           sample_closing).
  - vm_compute. reflexivity.
  - reflexivity.
  - reflexivity.
  - reflexivity.
Defined.

(** *** The wake cycle, further *)

(** The node as [setup] finds it once the greeting blink is over. *)
Lemma boot_blink (r : Rtc) :
  blinkLED 2 50 (delay 100 (boot r)) =
  {| rtc := r; messageSent := false;
     deb := {| lastDebounceTime := 0; lastReedState := HIGH;
               reedState := HIGH |};
     clock := 300; pending := []; radio := [] |}.
Proof. reflexivity. Qed.

(** From [wakeCount++] to deep sleep nothing touches the RTC memory or the
    radio any more. *)
Lemma cycle_tail (line : Z -> Level) (n : State) :
  (let n1 := inc_wakeCount n in
   let n2 := delay 100 n1 in
   let '(triggered, n3) := checkTrapTriggered line n2 in
   let n4 := if triggered then blinkLED 3 200 n3 else n3 in
   Some (DeepSleep (rtc n4) (radio n4)))
  = Some (DeepSleep (rtc (inc_wakeCount n)) (radio n)).
Proof.
  cbv zeta.
  pose proof (checkTrapTriggered_frame line (delay 100 (inc_wakeCount n)))
    as (Hc1 & Hc2).
  destruct (checkTrapTriggered line (delay 100 (inc_wakeCount n)))
    as [triggered n3]. cbn [snd] in Hc1, Hc2.
  rewrite delay_rtc in Hc1. rewrite delay_radio in Hc2.
  destruct triggered.
  - destruct (blinkLED_frame 3 200 n3) as (-> & ->).
    rewrite Hc1, Hc2. reflexivity.
  - rewrite Hc1, Hc2. reflexivity.
Qed.

(** X7. A wake caused by the reed line, the radio having come up: the trap count
    goes up by one, the time of the trigger is noted, and exactly one
    trigger frame goes to the radio, carrying the new count and the voltage
    read at sending time.  The RTC memory the cycle leaves is the same
    whether the frame was accepted, confirmed or neither: a failed send is
    not retried and not remembered. *)
Theorem trigger_wake_outcome (fuel : nat) (w : Wake) (r : Rtc) :
  (101 <= fuel)%nat ->
  cause w = WAKEUP_EXT0 ->
  init_ok w = true -> peer_ok w = true ->
  setup fuel w r =
  Some (DeepSleep
          {| trapCount := wrap32 (trapCount r + 1);
             wakeCount := wrap32 (wakeCount r + 1);
             lastTriggerTime := 300 |}
          [ ({| node_id := NODE_ID; event_type := TRIGGER;
                trap_count := wrap32 (trapCount r + 1);
                battery_voltage := readBatteryVoltage (adc_send w);
                route_hops := 0; timestamp := 1300 |}, send_ok w) ]).
Proof.
  intros Hfuel Hc Hi Hp. unfold setup.
  rewrite Hi, Hp, Hc, boot_blink. cbn [negb].
  set (n1 := blinkLED 5 100 _).
  assert (E1 : n1 =
    {| rtc := {| trapCount := wrap32 (trapCount r + 1);
                 wakeCount := wakeCount r; lastTriggerTime := 300 |};
       messageSent := false;
       deb := {| lastDebounceTime := 0; lastReedState := HIGH;
                 reedState := HIGH |};
       clock := 1300; pending := []; radio := [] |}) by reflexivity.
  clearbody n1. subst n1.
  match goal with
  | |- context [sendMessage fuel ?a ?b ?c ?d ?n] =>
      destruct (sendMessage_returns fuel a b c d n Hfuel) as (b0 & n2 & E);
      rewrite E; apply sendMessage_frame in E
  end.
  destruct E as (Er & _ & Era).
  pose proof (cycle_tail (reed w) (delay 500 n2)) as T.
  cbv beta iota zeta in T |- *. rewrite T.
  unfold inc_wakeCount. cbn [rtc set_rtc].
  rewrite delay_rtc, delay_radio, Er, Era. reflexivity.
Qed.

Lemma trigger_wake_outcome_witness :
  setup 101 (sample_wake WAKEUP_EXT0 2400) (sample_rtc 3 7) =
  Some (DeepSleep
          {| trapCount := wrap32 (trapCount (sample_rtc 3 7) + 1);
             wakeCount := wrap32 (wakeCount (sample_rtc 3 7) + 1);
             lastTriggerTime := 300 |}
          [ ({| node_id := NODE_ID; event_type := TRIGGER;
                trap_count := wrap32 (trapCount (sample_rtc 3 7) + 1);
                battery_voltage :=
                  readBatteryVoltage (adc_send (sample_wake WAKEUP_EXT0 2400));
                route_hops := 0; timestamp := 1300 |},
             send_ok (sample_wake WAKEUP_EXT0 2400)) ]).
Proof.
  apply (trigger_wake_outcome 101 (sample_wake WAKEUP_EXT0 2400)
           (sample_rtc 3 7)).
  - lia.
  - reflexivity.
  - reflexivity.
  - reflexivity.
Defined.

(** X8. A wake with any other cause -- the timer, or a start that is no wake
    from deep sleep at all -- the radio having come up.  The trap count and
    the trigger time stay as they are and the wake count goes up by one.  On
    a wake count that is a multiple of [BATTERY_CHECK_INTERVAL] exactly one
    frame goes to the radio: its event type is decided by the voltage read
    at the start of [setup], while the voltage it carries is read anew at
    sending time. *)
Theorem periodic_wake_outcome (fuel : nat) (w : Wake) (r : Rtc) :
  (101 <= fuel)%nat ->
  cause w <> WAKEUP_EXT0 ->
  init_ok w = true -> peer_ok w = true ->
  setup fuel w r =
  Some (DeepSleep
          {| trapCount := trapCount r;
             wakeCount := wrap32 (wakeCount r + 1);
             lastTriggerTime := lastTriggerTime r |}
          (if wakeCount r mod BATTERY_CHECK_INTERVAL =? 0 then
             [ ({| node_id := NODE_ID;
                   event_type :=
                     if Qltb (readBatteryVoltage (adc_setup w))
                             LOW_BATTERY_THRESHOLD
                     then LOW_BATTERY else STATUS;
                   trap_count := trapCount r;
                   battery_voltage := readBatteryVoltage (adc_send w);
                   route_hops := 0; timestamp := 300 |}, send_ok w) ]
           else [])).
Proof.
  intros Hfuel Hc Hi Hp. unfold setup.
  rewrite Hi, Hp, boot_blink. cbn [negb rtc].
  set (n0 := mkState r false _ 300 [] []).
  assert (Hsend : forall ev,
    exists n2,
      option_map snd
        (sendMessage fuel (adc_send w) (send_ok w) (confirm_after w) ev n0)
        = Some n2 /\
      rtc n2 = r /\
      radio n2 = [ ({| node_id := NODE_ID; event_type := ev;
                       trap_count := trapCount r;
                       battery_voltage := readBatteryVoltage (adc_send w);
                       route_hops := 0; timestamp := 300 |}, send_ok w) ]).
  { intros ev.
    destruct (sendMessage_returns fuel (adc_send w) (send_ok w)
                (confirm_after w) ev n0 Hfuel) as (b0 & n2 & E).
    exists n2. rewrite E. split; [reflexivity|].
    apply sendMessage_frame in E. destruct E as (Er & _ & Era).
    split; [exact Er | exact Era]. }
  assert (Hgoal : forall reported,
    reported =
      (if wakeCount r mod BATTERY_CHECK_INTERVAL =? 0
       then
         if Qltb (readBatteryVoltage (adc_setup w)) LOW_BATTERY_THRESHOLD
         then option_map snd
                (sendMessage fuel (adc_send w) (send_ok w) (confirm_after w)
                   LOW_BATTERY n0)
         else option_map snd
                (sendMessage fuel (adc_send w) (send_ok w) (confirm_after w)
                   STATUS n0)
       else Some n0) ->
    match reported with
    | None => None
    | Some n =>
        let n1 := inc_wakeCount n in
        let n2 := delay 100 n1 in
        let '(triggered, n3) := checkTrapTriggered (reed w) n2 in
        let n4 := if triggered then blinkLED 3 200 n3 else n3 in
        Some (DeepSleep (rtc n4) (radio n4))
    end =
    Some (DeepSleep
            {| trapCount := trapCount r;
               wakeCount := wrap32 (wakeCount r + 1);
               lastTriggerTime := lastTriggerTime r |}
            (if wakeCount r mod BATTERY_CHECK_INTERVAL =? 0 then
               [ ({| node_id := NODE_ID;
                     event_type :=
                       if Qltb (readBatteryVoltage (adc_setup w))
                               LOW_BATTERY_THRESHOLD
                       then LOW_BATTERY else STATUS;
                     trap_count := trapCount r;
                     battery_voltage := readBatteryVoltage (adc_send w);
                     route_hops := 0; timestamp := 300 |}, send_ok w) ]
             else []))).
  { intros reported ->.
    destruct (wakeCount r mod BATTERY_CHECK_INTERVAL =? 0).
    - destruct (Qltb _ _).
      + destruct (Hsend LOW_BATTERY) as (n2 & -> & Er & Era).
        rewrite (cycle_tail (reed w) n2). unfold inc_wakeCount.
        cbn [rtc set_rtc]. rewrite Er, Era. reflexivity.
      + destruct (Hsend STATUS) as (n2 & -> & Er & Era).
        rewrite (cycle_tail (reed w) n2). unfold inc_wakeCount.
        cbn [rtc set_rtc]. rewrite Er, Era. reflexivity.
    - rewrite (cycle_tail (reed w) n0). reflexivity. }
  destruct (cause w); [contradiction | |]; apply Hgoal; reflexivity.
Qed.

(** A start from cold with the battery at about 3.06 V when [setup] begins
    and 3.87 V when the frame is built: the frame is a low battery warning
    that reports 3.87 V. *)
Lemma periodic_wake_outcome_witness :
  setup 101 (mkWake WAKEUP_UNDEFINED true true 1900 2400 false None
               (fun _ => HIGH)) power_on =
  Some (DeepSleep
          {| trapCount := 0; wakeCount := wrap32 (0 + 1);
             lastTriggerTime := 0 |}
          (if 0 mod BATTERY_CHECK_INTERVAL =? 0 then
             [ ({| node_id := NODE_ID;
                   event_type :=
                     if Qltb (readBatteryVoltage 1900) LOW_BATTERY_THRESHOLD
                     then LOW_BATTERY else STATUS;
                   trap_count := 0;
                   battery_voltage := readBatteryVoltage 2400;
                   route_hops := 0; timestamp := 300 |}, false) ]
           else [])).
Proof.
  apply (periodic_wake_outcome 101
           (mkWake WAKEUP_UNDEFINED true true 1900 2400 false None
              (fun _ => HIGH)) power_on).
  - lia.
  - discriminate.
  - reflexivity.
  - reflexivity.
Defined.

(** X9. Over a run of wake cycles that reach deep sleep, and short of an
    overflow of the 32-bit counter, [wakeCount] counts the cycles whatever
    their cause, and what each cycle reports is decided by its cause and by
    the wake count it finds: a wake caused by the reed line reports the
    trigger and nothing else, also when the wake count is a multiple of
    [BATTERY_CHECK_INTERVAL] -- the status report of that cycle is skipped,
    not postponed. *)
Theorem wake_count_history (fuel : nat) (ws : list Wake) (r : Rtc) :
  (101 <= fuel)%nat ->
  (forall w, In w ws -> init_ok w = true /\ peer_ok w = true) ->
  0 <= wakeCount r ->
  wakeCount r + Z.of_nat (List.length ws) < 2 ^ 32 ->
  exists outs,
    cycles fuel ws r = Some outs /\
    reports outs = reports_after (wakeCount r) ws /\
    wake_counts outs =
      map (fun k => wakeCount r + Z.of_nat k) (seq 1 (List.length ws)).
Proof.
  intros Hfuel. revert r.
  induction ws as [|w ws IH]; intros r Hok H0 Hb.
  - exists []. repeat split.
  - destruct (Hok w (or_introl eq_refl)) as (Hi & Hp).
    destruct (setup_reaches_sleep fuel w r Hfuel Hi Hp)
      as (r1 & sent & E & Hw & _ & Hs).
    cbn [List.length] in Hb.
    assert (Hw' : wakeCount r1 = wakeCount r + 1).
    { rewrite Hw. apply wrap32_small. unfold is_u32. lia. }
    destruct (IH r1) as (outs & Ec & Hrep & Hcnt).
    + intros w' Hw''. apply Hok. right. exact Hw''.
    + lia.
    + lia.
    + exists (DeepSleep r1 sent :: outs).
      cbn [cycles]. rewrite E, Ec. split; [reflexivity|]. split.
      * cbn [reports map reports_after]. fold (reports outs).
        rewrite Hrep, Hw', Hs. reflexivity.
      * cbn [wake_counts flat_map app List.length seq map].
        fold (wake_counts outs). rewrite Hcnt, Hw'.
        change (Z.of_nat 1) with 1. f_equal.
        rewrite <- (seq_shift (List.length ws) 1), map_map. apply map_ext.
        intros k. lia.
Qed.

(** From power-on: a periodic wake that reports, a snap of the trap, a
    periodic wake that does not report. *)
Lemma wake_count_history_witness :
  exists outs,
    cycles 101 [sample_wake WAKEUP_TIMER 2400; sample_wake WAKEUP_EXT0 2400;
                sample_wake WAKEUP_TIMER 2400] power_on = Some outs /\
    reports outs =
      reports_after (wakeCount power_on)
        [sample_wake WAKEUP_TIMER 2400; sample_wake WAKEUP_EXT0 2400;
         sample_wake WAKEUP_TIMER 2400] /\
    wake_counts outs =
      map (fun k => wakeCount power_on + Z.of_nat k) (seq 1 3).
Proof.
  apply (wake_count_history 101
           [sample_wake WAKEUP_TIMER 2400; sample_wake WAKEUP_EXT0 2400;
            sample_wake WAKEUP_TIMER 2400] power_on).
  - lia.
  - cbn. intros w [<-|[<-|[<-|[]]]]; split; reflexivity.
  - cbn. lia.
  - vm_compute. reflexivity.
Defined.

(** *** The main loop *)

(** X10. One pass of [loop()].  When the detector answers [true] the trap count
    goes up by one, one trigger frame with the new count goes to the radio,
    and the pass lasts at least 6300 ms, so that two triggers are never
    reported closer together than that.  Otherwise the pass changes neither
    the RTC memory nor what went to the radio, and lasts 100 ms, or 300 ms
    when the stability check was made and failed.  The wake count is never
    touched. *)
Theorem loop_pass
    (fuel : nat) (line : Z -> Level) (raw : Z) (ok : bool) (cb : option Z)
    (n : State) :
  (101 <= fuel)%nat ->
  exists n',
    loop fuel line raw ok cb n = Some n' /\
    wakeCount (rtc n') = wakeCount (rtc n) /\
    if fst (checkTrapTriggered line n)
    then
      trapCount (rtc n') = wrap32 (trapCount (rtc n) + 1) /\
      radio n' =
        radio n ++
        [ ({| node_id := NODE_ID; event_type := TRIGGER;
              trap_count := wrap32 (trapCount (rtc n) + 1);
              battery_voltage := readBatteryVoltage raw;
              route_hops := 0;
              timestamp := wrap32 (clock n + 1200) |}, ok) ] /\
      clock n + 6300 <= clock n'
    else
      rtc n' = rtc n /\ radio n' = radio n /\
      (clock n' = clock n + 100 \/ clock n' = clock n + 300).
Proof.
  intros Hfuel. unfold loop.
  destruct (checkTrapTriggered_frame line n) as (Hr1 & Hra1).
  destruct (checkTrapTriggered_spec line n) as (Hfst & _ & Hclk).
  destruct (checkTrapTriggered line n) as [triggered n1].
  cbn [fst snd] in *.
  destruct triggered.
  - symmetry in Hfst. apply andb_true_iff in Hfst. destruct Hfst as (Hwait & _).
    rewrite Hwait in Hclk. unfold TRIGGER_STABLE_MS in Hclk.
    set (n2 := blinkLED 5 100 (inc_trapCount n1)).
    destruct (blinkLED_frame 5 100 (inc_trapCount n1)) as (Hr2 & Hra2).
    assert (Hc2 : clock n2 = clock n + 1200).
    { unfold n2, blinkLED. rewrite blinkLED_loop_clock.
      cbn [inc_trapCount set_rtc clock]. rewrite Hclk.
      change (Z.of_nat (Z.to_nat 5)) with 5. lia. }
    fold n2 in Hr2, Hra2.
    destruct (sendMessage_returns fuel raw ok cb TRIGGER n2 Hfuel)
      as (b & n3 & E).
    rewrite E. cbn [option_map].
    pose proof (sendMessage_clock _ _ _ _ _ _ _ _ E) as Hc3.
    apply sendMessage_frame in E. destruct E as (Er3 & _ & Era3).
    eexists. split; [reflexivity|].
    rewrite !delay_rtc, !delay_radio, !delay_clock, Er3, Era3, Hr2, Hra2.
    unfold millis. rewrite Hc2.
    cbn [inc_trapCount set_rtc rtc radio trapCount wakeCount].
    rewrite Hr1, Hra1. repeat split. lia.
  - cbn [option_map]. eexists. split; [reflexivity|].
    rewrite delay_rtc, delay_radio, delay_clock, Hr1, Hra1, Hclk.
    unfold TRIGGER_STABLE_MS.
    repeat split.
    match goal with
    | |- context [if ?c then 200 else 0] => destruct c
    end; [right | left]; lia.
Qed.

(** A pass that finds the line settled closed and stable. *)
Lemma loop_pass_witness :
  exists n',
    loop 101 sample_line 2400 true (Some 30) sample_closing = Some n' /\
    wakeCount (rtc n') = wakeCount (rtc sample_closing) /\
    if fst (checkTrapTriggered sample_line sample_closing)
    then
      trapCount (rtc n') = wrap32 (trapCount (rtc sample_closing) + 1) /\
      radio n' =
        radio sample_closing ++
        [ ({| node_id := NODE_ID; event_type := TRIGGER;
              trap_count := wrap32 (trapCount (rtc sample_closing) + 1);
              battery_voltage := readBatteryVoltage 2400;
              route_hops := 0;
              timestamp := wrap32 (clock sample_closing + 1200) |}, true) ] /\
      clock sample_closing + 6300 <= clock n'
    else
      rtc n' = rtc sample_closing /\ radio n' = radio sample_closing /\
      (clock n' = clock sample_closing + 100 \/
       clock n' = clock sample_closing + 300).
Proof.
  apply (loop_pass 101 sample_line 2400 true (Some 30) sample_closing). lia.
Defined.

End NodeExtra.

(** ** The gateway, further *)

Module GatewayExtra.
Import Codec Gateway GatewaySpec.

(** *** Text buffers *)

Lemma length_append (s1 s2 : string) :
  String.length (s1 ++ s2) = (String.length s1 + String.length s2)%nat.
Proof.
  induction s1 as [|c s1 IH]; [reflexivity|].
  cbn. rewrite IH. reflexivity.
Qed.

Lemma hex2_length (b : byte) : String.length (hex2 b) = 2%nat.
Proof. destruct b; reflexivity. Qed.

(** X11. Neither buffer of [forwardToMQTT] ever truncates: for every message
    taken from a frame the topic is the full text of its format, at most 20
    characters long, and the address string always has the 17 characters of
    six two-digit bytes and five colons. *)
Theorem buffers_suffice
    (data mac : list byte) (msg : TrapMessage float32) :
  decode data = Some msg ->
  topic_of msg
    = (mqtt_topic_prefix ++ decimal (node_id msg) ++ "/"
       ++ eventTypeStr (event_type msg))%string /\
  (String.length (topic_of msg) <= 20)%nat /\
  String.length (format_mac mac) = 17%nat.
Proof.
  intros Hdec.
  pose proof (CodecSpec.decode_well_typed data msg Hdec) as (Hid & _).
  rewrite topic_of_text by exact Hid.
  split; [reflexivity|]. split.
  - assert (Hall : forallb (fun n =>
              forallb (fun nm =>
                Nat.leb (String.length (topic_text (Z.of_nat n) nm)) 20)
                event_names) (seq 0 256) = true) by (vm_compute; reflexivity).
    unfold is_u8 in Hid. change (2 ^ 8) with 256 in Hid.
    assert (Hin : In (Z.to_nat (node_id msg)) (seq 0 256))
      by (apply in_seq; lia).
    rewrite forallb_forall in Hall. specialize (Hall _ Hin).
    rewrite forallb_forall in Hall.
    specialize (Hall _ (eventTypeStr_names (event_type msg))).
    apply Nat.leb_le in Hall. rewrite Z2Nat.id in Hall by lia. exact Hall.
  - unfold format_mac, snprintf. rewrite substring_whole.
    + rewrite !length_append, !hex2_length. reflexivity.
    + rewrite !length_append, !hex2_length. cbn. lia.
Qed.

Lemma buffers_suffice_witness :
  topic_of (sample_message LOW_BATTERY)
    = (mqtt_topic_prefix ++ decimal (node_id (sample_message LOW_BATTERY))
       ++ "/" ++ eventTypeStr (event_type (sample_message LOW_BATTERY)))%string
  /\
  (String.length (topic_of (sample_message LOW_BATTERY)) <= 20)%nat /\
  String.length (format_mac sample_mac) = 17%nat.
Proof.
  apply (buffers_suffice
           (encode sample_padding (sample_message LOW_BATTERY)) sample_mac
           (sample_message LOW_BATTERY)).
  vm_compute. reflexivity.
Defined.

(** *** How long the gateway is held *)

(** X12. [reconnectMQTT] does nothing when the connection is up.  Otherwise it
    holds the gateway for 5000 ms per failed attempt, 25 s when it gives
    up; and it never touches the two counters. *)
Theorem reconnectMQTT_duration (br : Broker) (s : State) :
  messagesReceived (reconnectMQTT br s) = messagesReceived s /\
  messagesForwarded (reconnectMQTT br s) = messagesForwarded s /\
  clock s <= clock (reconnectMQTT br s) <= clock s + 25000 /\
  (connected s = true -> reconnectMQTT br s = s) /\
  (connected (reconnectMQTT br s) = false ->
   clock (reconnectMQTT br s) = clock s + 25000).
Proof.
  unfold reconnectMQTT, MAX_ATTEMPTS.
  destruct (connected s) eqn:Hc.
  - assert (E : reconnect_loop 5 br s = s)
      by (cbn [reconnect_loop]; rewrite Hc; reflexivity).
    rewrite E. repeat split; try lia. congruence.
  - destruct (reconnect_loop_spec br 5 s Hc)
      as (Hr & Hf & k & Hk & _ & Hclk & Hend).
    unfold RETRY_DELAY_MS in Hclk.
    split; [exact Hr|]. split; [exact Hf|]. split; [lia|].
    split; [discriminate|].
    destruct Hend as [(-> & _)|(_ & _ & Hcon & _)]; intros H.
    + rewrite Hclk. change (Z.of_nat 5) with 5. lia.
    + congruence.
Qed.

(** X13. [setupWiFi] polls the WiFi status every 500 ms and returns at the first
    poll that finds it connected, or after 30 polls, 15 s, have found it
    down; it changes nothing but the clock. *)
Theorem setupWiFi_bounded (wifi : Z -> bool) (s : State) :
  exists k,
    (k <= 30)%nat /\
    (forall i, (i < k)%nat -> wifi (clock s + 500 * Z.of_nat i) = false) /\
    ((k < 30)%nat -> wifi (clock s + 500 * Z.of_nat k) = true) /\
    setupWiFi wifi s =
      {| messagesReceived := messagesReceived s;
         messagesForwarded := messagesForwarded s;
         connected := connected s;
         clock := clock s + 500 * Z.of_nat k;
         connects := connects s;
         publishes := publishes s;
         log := log s ++ repeat (Delay 500) k |}.
Proof.
  unfold setupWiFi, WIFI_ATTEMPTS. generalize 30%nat as left.
  intros left. revert s.
  induction left as [|left IH]; intros s.
  - exists 0%nat. split; [lia|]. split; [intros; lia|]. split; [lia|].
    cbn [wifi_wait repeat]. rewrite app_nil_r, Z.mul_0_r, Z.add_0_r.
    destruct s; reflexivity.
  - cbn [wifi_wait]. destruct (wifi (clock s)) eqn:Ew.
    + exists 0%nat. split; [lia|]. split; [intros; lia|].
      rewrite Z.mul_0_r, Z.add_0_r. split; [intros _; exact Ew|].
      cbn [repeat]. rewrite app_nil_r. destruct s; reflexivity.
    + destruct (IH (delay WIFI_POLL_MS s)) as (k & Hk & Hdown & Hup & E).
      unfold WIFI_POLL_MS in *. cbn [delay clock] in Hdown, Hup.
      exists (S k). split; [lia|]. split; [|split].
      * intros i Hi. destruct i as [|i].
        -- rewrite Z.mul_0_r, Z.add_0_r. exact Ew.
        -- replace (clock s + 500 * Z.of_nat (S i))
             with (clock s + 500 + 500 * Z.of_nat i) by lia.
           apply Hdown. lia.
      * intros Hlt.
        replace (clock s + 500 * Z.of_nat (S k))
          with (clock s + 500 + 500 * Z.of_nat k) by lia.
        apply Hup. lia.
      * rewrite E. cbn [delay messagesReceived messagesForwarded connected
                        clock connects publishes log repeat].
        rewrite <- app_assoc. f_equal. lia.
Qed.

Lemma reconnectMQTT_clock (br : Broker) (s : State) :
  clock s <= clock (reconnectMQTT br s) <= clock s + 25000 /\
  (connected s = false -> connected (reconnectMQTT br s) = false ->
   clock (reconnectMQTT br s) = clock s + 25000).
Proof.
  unfold reconnectMQTT, MAX_ATTEMPTS.
  destruct (connected s) eqn:Hc.
  - assert (E : reconnect_loop 5 br s = s)
      by (cbn [reconnect_loop]; rewrite Hc; reflexivity).
    rewrite E. split; [lia | discriminate].
  - destruct (reconnect_loop_spec br 5 s Hc)
      as (_ & _ & k & Hk & _ & Hclk & Hend).
    unfold RETRY_DELAY_MS in Hclk. split; [lia|].
    intros _ H.
    destruct Hend as [(-> & _)|(_ & _ & Hcon & _)]; [|congruence].
    rewrite Hclk. change (Z.of_nat 5) with 5. lia.
Qed.

(** Forwarding from a disconnected state is the reconnection followed, when
    it succeeds, by forwarding from the connected state it leaves. *)
Lemma forwardToMQTT_reconnect br msg mac s :
  connected s = false ->
  forwardToMQTT br msg mac s =
  if connected (reconnectMQTT br s)
  then forwardToMQTT br msg mac (reconnectMQTT br s)
  else reconnectMQTT br s.
Proof.
  intros Hc. unfold forwardToMQTT at 1. rewrite Hc. cbn [negb].
  destruct (connected (reconnectMQTT br s)) eqn:E; cbn [negb];
    [|reflexivity].
  unfold forwardToMQTT. rewrite E. cbn [negb]. rewrite E. reflexivity.
Qed.

Lemma forwardToMQTT_clock br msg mac s :
  clock (forwardToMQTT br msg mac s) =
  clock (if connected s then s else reconnectMQTT br s).
Proof.
  destruct (connected s) eqn:Hc.
  - rewrite forwardToMQTT_connected by exact Hc. reflexivity.
  - rewrite forwardToMQTT_reconnect by exact Hc.
    destruct (connected (reconnectMQTT br s)) eqn:E; [|reflexivity].
    rewrite forwardToMQTT_connected by exact E. reflexivity.
Qed.

(** X14. The receive callback holds the gateway for the 50 ms of the LED blink
    when the frame is rejected or the connection is up.  With the
    connection down it also runs the reconnection: up to 25 s more, and
    exactly that when the broker stays away. *)
Theorem onDataReceive_duration
    (br : Broker) (mac data : list byte) (s : State) :
  clock s + 50 <= clock (onDataReceive br mac data s) <= clock s + 25050 /\
  (connected s = true \/ decode data = None ->
   clock (onDataReceive br mac data s) = clock s + 50) /\
  (connected s = false -> decode data <> None ->
   connected (onDataReceive br mac data s) = false ->
   clock (onDataReceive br mac data s) = clock s + 25050).
Proof.
  destruct (decode data) as [msg|] eqn:Hdec.
  - rewrite (onDataReceive_decoded br mac data msg s Hdec).
    set (s1 := inc_messagesReceived (delay 50 s)).
    assert (Hc1 : clock s1 = clock s + 50) by reflexivity.
    assert (Hcon1 : connected s1 = connected s) by reflexivity.
    rewrite forwardToMQTT_clock, Hcon1.
    destruct (connected s) eqn:Hc.
    + rewrite Hc1. split; [lia|]. split; [reflexivity|]. discriminate.
    + destruct (reconnectMQTT_clock br s1) as (Hb & Hgive).
      split; [lia|]. split.
      * intros [H|H]; discriminate.
      * intros _ _ Hdown.
        rewrite forwardToMQTT_reconnect in Hdown by exact Hcon1.
        destruct (connected (reconnectMQTT br s1)) eqn:E.
        -- rewrite forwardToMQTT_connected in Hdown by exact E.
           discriminate.
        -- rewrite (Hgive Hcon1 eq_refl). lia.
  - rewrite (onDataReceive_rejected br mac data s Hdec).
    cbn [inc_messagesReceived delay clock].
    split; [lia|]. split; [reflexivity|]. intros _ H. contradiction.
Qed.

(** The broker away for good: the callback returns after 25.05 s. *)
Lemma onDataReceive_duration_witness :
  clock (sample_state false) + 50
    <= clock (onDataReceive (steady_broker false) sample_mac
                (encode sample_padding (sample_message TRIGGER))
                (sample_state false))
    <= clock (sample_state false) + 25050 /\
  (connected (sample_state false) = true \/
   decode (encode sample_padding (sample_message TRIGGER)) = None ->
   clock (onDataReceive (steady_broker false) sample_mac
            (encode sample_padding (sample_message TRIGGER))
            (sample_state false))
   = clock (sample_state false) + 50) /\
  (connected (sample_state false) = false ->
   decode (encode sample_padding (sample_message TRIGGER)) <> None ->
   connected (onDataReceive (steady_broker false) sample_mac
                (encode sample_padding (sample_message TRIGGER))
                (sample_state false)) = false ->
   clock (onDataReceive (steady_broker false) sample_mac
            (encode sample_padding (sample_message TRIGGER))
            (sample_state false))
   = clock (sample_state false) + 25050).
Proof.
  apply (onDataReceive_duration (steady_broker false) sample_mac
           (encode sample_padding (sample_message TRIGGER))
           (sample_state false)).
Defined.

(** *** The counters *)

Lemma forwards_app l1 l2 : forwards (l1 ++ l2) = forwards l1 + forwards l2.
Proof.
  unfold forwards. rewrite filter_app, length_app. lia.
Qed.

Lemma forwards_failed k : forwards (failed_attempts k) = 0.
Proof.
  induction k as [|k IH]; [reflexivity|].
  rewrite failed_attempts_S. exact IH.
Qed.

Lemma forwards_nonneg l : 0 <= forwards l.
Proof. unfold forwards. lia. Qed.

(** The topic of a forwarded message begins with the prefix, so it is never
    the status topic. *)
Lemma topic_not_status (msg : TrapMessage float32) :
  String.eqb (topic_of msg) gateway_status_topic = false.
Proof. reflexivity. Qed.

(** What the reconnection adds to the log holds no forward. *)
Lemma reconnectMQTT_log br s :
  exists new,
    log (reconnectMQTT br s) = log s ++ new /\ forwards new = 0 /\
    messagesReceived (reconnectMQTT br s) = messagesReceived s /\
    messagesForwarded (reconnectMQTT br s) = messagesForwarded s.
Proof.
  unfold reconnectMQTT, MAX_ATTEMPTS.
  destruct (connected s) eqn:Hc.
  - assert (E : reconnect_loop 5 br s = s)
      by (cbn [reconnect_loop]; rewrite Hc; reflexivity).
    rewrite E. exists []. rewrite app_nil_r. auto.
  - destruct (reconnect_loop_spec br 5 s Hc)
      as (Hr & Hf & k & _ & _ & _ & Hend).
    destruct Hend as [(-> & _ & _ & Hl)|(_ & _ & _ & _ & Hl)].
    + exists (failed_attempts 5). rewrite forwards_failed. auto.
    + eexists. split; [exact Hl|]. rewrite forwards_app, forwards_failed.
      split; [|auto]. unfold forwards. cbn.
      destruct (publish_ok br (publishes s)); reflexivity.
Qed.

(** One call of [forwardToMQTT]: [messagesForwarded] goes up by one exactly
    when the log gains a forward, and by nothing otherwise. *)
Lemma forwardToMQTT_counts br msg mac s :
  exists new,
    log (forwardToMQTT br msg mac s) = log s ++ new /\
    messagesReceived (forwardToMQTT br msg mac s) = messagesReceived s /\
    ((forwards new = 1 /\
      messagesForwarded (forwardToMQTT br msg mac s)
        = wrap32 (messagesForwarded s + 1))
     \/
     (forwards new = 0 /\
      messagesForwarded (forwardToMQTT br msg mac s) = messagesForwarded s)).
Proof.
  assert (Hup : forall s0, connected s0 = true ->
    exists new,
      log (forwardToMQTT br msg mac s0) = log s0 ++ new /\
      messagesReceived (forwardToMQTT br msg mac s0) = messagesReceived s0 /\
      ((forwards new = 1 /\
        messagesForwarded (forwardToMQTT br msg mac s0)
          = wrap32 (messagesForwarded s0 + 1))
       \/
       (forwards new = 0 /\
        messagesForwarded (forwardToMQTT br msg mac s0)
          = messagesForwarded s0))).
  { intros s0 Hc. rewrite forwardToMQTT_connected by exact Hc.
    eexists. split; [reflexivity|]. split; [reflexivity|].
    cbn [messagesForwarded]. unfold forwards. cbn [filter is_forward].
    destruct (publish_ok br (publishes s0)).
    - left. rewrite topic_not_status. split; reflexivity.
    - right. split; reflexivity. }
  destruct (connected s) eqn:Hc; [apply Hup; exact Hc|].
  rewrite forwardToMQTT_reconnect by exact Hc.
  destruct (reconnectMQTT_log br s) as (new1 & Hl1 & Hf1 & Hr1 & Hm1).
  destruct (connected (reconnectMQTT br s)) eqn:E.
  - destruct (Hup _ E) as (new2 & Hl2 & Hr2 & Hcase).
    exists (new1 ++ new2). rewrite Hl2, Hl1, Hr2, Hr1, app_assoc.
    split; [reflexivity|]. split; [reflexivity|].
    rewrite forwards_app, Hf1, <- Hm1. exact Hcase.
  - exists new1. rewrite Hr1, Hm1. auto.
Qed.

Lemma wrap32_add_l a b : wrap32 (wrap32 a + b) = wrap32 (a + b).
Proof. unfold wrap32. apply Zplus_mod_idemp_l. Qed.

(** One call of the receive callback. *)
Lemma onDataReceive_counts br mac data s :
  is_u32 (messagesForwarded s) ->
  exists new,
    log (onDataReceive br mac data s) = log s ++ new /\
    messagesReceived (onDataReceive br mac data s)
      = wrap32 (messagesReceived s + 1) /\
    messagesForwarded (onDataReceive br mac data s)
      = wrap32 (messagesForwarded s + forwards new) /\
    0 <= forwards new <= 1.
Proof.
  intros Hf.
  destruct (decode data) as [msg|] eqn:Hdec.
  - rewrite (onDataReceive_decoded br mac data msg s Hdec).
    destruct (forwardToMQTT_counts br msg mac
                (inc_messagesReceived (delay 50 s)))
      as (new & Hl & Hr & Hcase).
    exists (Delay 50 :: new). rewrite Hl, Hr.
    cbn [inc_messagesReceived delay log messagesReceived].
    split; [rewrite <- app_assoc; reflexivity|].
    split; [reflexivity|].
    change (Delay 50 :: new) with ([Delay 50] ++ new).
    rewrite forwards_app. change (forwards [Delay 50]) with 0.
    destruct Hcase as [(-> & ->)|(-> & ->)];
      cbn [inc_messagesReceived delay messagesForwarded].
    + split; [reflexivity | lia].
    + split; [|lia]. symmetry. rewrite Z.add_0_r. apply wrap32_small.
      exact Hf.
  - rewrite (onDataReceive_rejected br mac data s Hdec).
    exists [Delay 50]. change (forwards [Delay 50]) with 0.
    cbn [inc_messagesReceived delay log messagesReceived messagesForwarded].
    split; [reflexivity|]. split; [reflexivity|]. split; [|lia].
    symmetry. rewrite Z.add_0_r. apply wrap32_small. exact Hf.
Qed.

(** X15. Over any series of received frames, [messagesReceived] counts the
    frames and [messagesForwarded] counts the forwards, the publishes that
    succeeded on a topic other than the status topic; both modulo 2^32.
    There is at most one forward per frame, so that a gateway whose
    counters start level and do not overflow never shows more messages
    forwarded than received. *)
Theorem counters_count
    (br : Broker) (frames : list (list byte * list byte)) (s : State) :
  is_u32 (messagesReceived s) ->
  is_u32 (messagesForwarded s) ->
  exists new,
    log (receive_all br frames s) = log s ++ new /\
    messagesReceived (receive_all br frames s)
      = wrap32 (messagesReceived s + Z.of_nat (List.length frames)) /\
    messagesForwarded (receive_all br frames s)
      = wrap32 (messagesForwarded s + forwards new) /\
    0 <= forwards new <= Z.of_nat (List.length frames) /\
    (messagesForwarded s <= messagesReceived s ->
     messagesReceived s + Z.of_nat (List.length frames) < 2 ^ 32 ->
     messagesForwarded (receive_all br frames s)
       <= messagesReceived (receive_all br frames s)).
Proof.
  intros Hr Hf.
  assert (Hmain : exists new,
    log (receive_all br frames s) = log s ++ new /\
    messagesReceived (receive_all br frames s)
      = wrap32 (messagesReceived s + Z.of_nat (List.length frames)) /\
    messagesForwarded (receive_all br frames s)
      = wrap32 (messagesForwarded s + forwards new) /\
    0 <= forwards new <= Z.of_nat (List.length frames)).
  { revert s Hr Hf. unfold receive_all.
    induction frames as [|[mac data] frames IH]; intros s Hr Hf.
    - exists []. cbn [fold_left List.length]. rewrite app_nil_r.
      change (forwards []) with 0. change (Z.of_nat 0) with 0.
      rewrite !Z.add_0_r, !wrap32_small by assumption.
      repeat split; lia.
    - cbn [fold_left fst snd].
      destruct (onDataReceive_counts br mac data s Hf)
        as (n1 & Hl1 & Hr1 & Hf1 & Hb1).
      destruct (IH (onDataReceive br mac data s)) as (n2 & Hl2 & Hr2 & Hf2 & Hb2).
      + rewrite Hr1. apply wrap32_range.
      + rewrite Hf1. apply wrap32_range.
      + exists (n1 ++ n2).
        rewrite Hl2, Hl1, Hr2, Hr1, Hf2, Hf1, !wrap32_add_l, forwards_app.
        cbn [List.length].
        split; [rewrite app_assoc; reflexivity|].
        split; [f_equal; lia|].
        split; [f_equal; lia | lia]. }
  destruct Hmain as (new & Hl & Hrc & Hfc & Hb).
  exists new. repeat split; try assumption; try lia.
  intros Hle Hno. rewrite Hrc, Hfc.
  unfold is_u32 in *.
  rewrite (wrap32_small (messagesReceived s + _)) by (unfold is_u32; lia).
  unfold wrap32.
  pose proof (Z.mod_le (messagesForwarded s + forwards new) (2 ^ 32)
                ltac:(lia) ltac:(lia)).
  lia.
Qed.

(** Three frames while the broker is up: a trigger, a frame that is too
    short, a status. *)
Lemma counters_count_witness :
  exists new,
    log (receive_all (steady_broker true)
           [ (sample_mac, encode sample_padding (sample_message TRIGGER));
             (sample_mac, [Byte.x01; Byte.x01]);
             (sample_mac, encode sample_padding (sample_message STATUS)) ]
           (sample_state true))
      = log (sample_state true) ++ new /\
    messagesReceived (receive_all (steady_broker true)
           [ (sample_mac, encode sample_padding (sample_message TRIGGER));
             (sample_mac, [Byte.x01; Byte.x01]);
             (sample_mac, encode sample_padding (sample_message STATUS)) ]
           (sample_state true))
      = wrap32 (messagesReceived (sample_state true) + 3) /\
    messagesForwarded (receive_all (steady_broker true)
           [ (sample_mac, encode sample_padding (sample_message TRIGGER));
             (sample_mac, [Byte.x01; Byte.x01]);
             (sample_mac, encode sample_padding (sample_message STATUS)) ]
           (sample_state true))
      = wrap32 (messagesForwarded (sample_state true) + forwards new) /\
    0 <= forwards new <= 3 /\
    (messagesForwarded (sample_state true)
       <= messagesReceived (sample_state true) ->
     messagesReceived (sample_state true) + 3 < 2 ^ 32 ->
     messagesForwarded (receive_all (steady_broker true)
           [ (sample_mac, encode sample_padding (sample_message TRIGGER));
             (sample_mac, [Byte.x01; Byte.x01]);
             (sample_mac, encode sample_padding (sample_message STATUS)) ]
           (sample_state true))
       <= messagesReceived (receive_all (steady_broker true)
           [ (sample_mac, encode sample_padding (sample_message TRIGGER));
             (sample_mac, [Byte.x01; Byte.x01]);
             (sample_mac, encode sample_padding (sample_message STATUS)) ]
           (sample_state true))).
Proof.
  apply (counters_count (steady_broker true)
           [ (sample_mac, encode sample_padding (sample_message TRIGGER));
             (sample_mac, [Byte.x01; Byte.x01]);
             (sample_mac, encode sample_padding (sample_message STATUS)) ]
           (sample_state true)).
  - unfold is_u32. cbn. lia.
  - unfold is_u32. cbn. lia.
Defined.

(** *** Status reporting *)

(** X16. [publishGatewayStatus] publishes nothing while the connection is down.
    While it is up it issues one publish on the status topic, which reports
    the two counters as they stand and the uptime in whole seconds of the
    32-bit millisecond clock, hence never more than 4294967 s.  It leaves
    the counters untouched, and its publish is no forward. *)
Theorem status_report (br : Broker) (rssi free_heap : Z) (s : State) :
  messagesReceived (publishGatewayStatus br rssi free_heap s)
    = messagesReceived s /\
  messagesForwarded (publishGatewayStatus br rssi free_heap s)
    = messagesForwarded s /\
  (connected s = false -> publishGatewayStatus br rssi free_heap s = s) /\
  (connected s = true ->
   exists uptime ok,
     0 <= uptime <= 4294967 /\
     (0 <= clock s < 2 ^ 32 -> uptime = clock s / 1000) /\
     log (publishGatewayStatus br rssi free_heap s) =
       log s ++
       [ Publish gateway_status_topic
           (Json [ ("status", JStr "online");
                   ("uptime", JInt uptime);
                   ("wifi_rssi", JInt rssi);
                   ("messages_received", JInt (messagesReceived s));
                   ("messages_forwarded", JInt (messagesForwarded s));
                   ("free_heap", JInt free_heap) ]%string)
           ok ] /\
     forwards (log (publishGatewayStatus br rssi free_heap s))
       = forwards (log s)).
Proof.
  unfold publishGatewayStatus.
  destruct (connected s) eqn:Hc; cbn [negb].
  - split; [reflexivity|]. split; [reflexivity|]. split; [discriminate|].
    intros _.
    exists (millis s / 1000), (publish_ok br (publishes s)).
    pose proof (wrap32_range (clock s)) as Hm. unfold is_u32 in Hm.
    change (2 ^ 32) with 4294967296 in *.
    split; [|split; [|split]].
    + unfold millis.
      split; [apply Z.div_pos; lia|].
      apply Z.lt_succ_r. apply Z.div_lt_upper_bound; lia.
    + intros H. unfold millis. rewrite wrap32_small; [reflexivity|].
      unfold is_u32. exact H.
    + unfold mqtt_publish. rewrite Hc. reflexivity.
    + unfold mqtt_publish. cbn [snd log]. rewrite forwards_app.
      unfold forwards at 2. cbn [filter is_forward].
      destruct (connected s && publish_ok br (publishes s)); cbn; lia.
  - repeat split; discriminate.
Qed.

Lemma status_report_witness :
  messagesReceived (publishGatewayStatus (steady_broker true) (-58) 180000
                      (core sample_bridge))
    = messagesReceived (core sample_bridge) /\
  messagesForwarded (publishGatewayStatus (steady_broker true) (-58) 180000
                       (core sample_bridge))
    = messagesForwarded (core sample_bridge) /\
  (connected (core sample_bridge) = false ->
   publishGatewayStatus (steady_broker true) (-58) 180000 (core sample_bridge)
   = core sample_bridge) /\
  (connected (core sample_bridge) = true ->
   exists uptime ok,
     0 <= uptime <= 4294967 /\
     (0 <= clock (core sample_bridge) < 2 ^ 32 ->
      uptime = clock (core sample_bridge) / 1000) /\
     log (publishGatewayStatus (steady_broker true) (-58) 180000
            (core sample_bridge)) =
       log (core sample_bridge) ++
       [ Publish gateway_status_topic
           (Json [ ("status", JStr "online");
                   ("uptime", JInt uptime);
                   ("wifi_rssi", JInt (-58));
                   ("messages_received",
                    JInt (messagesReceived (core sample_bridge)));
                   ("messages_forwarded",
                    JInt (messagesForwarded (core sample_bridge)));
                   ("free_heap", JInt 180000) ]%string)
           ok ] /\
     forwards (log (publishGatewayStatus (steady_broker true) (-58) 180000
                      (core sample_bridge)))
       = forwards (log (core sample_bridge))).
Proof.
  apply (status_report (steady_broker true) (-58) 180000 (core sample_bridge)).
Defined.

(** *** The main loop *)






(** A broker that refuses twice and then accepts: 10 s. *)
Lemma reconnectMQTT_duration_witness :
  messagesReceived (reconnectMQTT (mkBroker (Nat.leb 3) (fun _ => true))
                      (sample_state false))
    = messagesReceived (sample_state false) /\
  messagesForwarded (reconnectMQTT (mkBroker (Nat.leb 3) (fun _ => true))
                       (sample_state false))
    = messagesForwarded (sample_state false) /\
  clock (sample_state false)
    <= clock (reconnectMQTT (mkBroker (Nat.leb 3) (fun _ => true))
                (sample_state false))
    <= clock (sample_state false) + 25000 /\
  (connected (sample_state false) = true ->
   reconnectMQTT (mkBroker (Nat.leb 3) (fun _ => true)) (sample_state false)
   = sample_state false) /\
  (connected (reconnectMQTT (mkBroker (Nat.leb 3) (fun _ => true))
                (sample_state false)) = false ->
   clock (reconnectMQTT (mkBroker (Nat.leb 3) (fun _ => true))
            (sample_state false))
   = clock (sample_state false) + 25000).
Proof.
  apply (reconnectMQTT_duration (mkBroker (Nat.leb 3) (fun _ => true))
           (sample_state false)).
Defined.

(** WiFi that comes up 1.5 s after the call. *)
Lemma setupWiFi_bounded_witness :
  exists k,
    (k <= 30)%nat /\
    (forall i, (i < k)%nat ->
       (236000 <=? clock (sample_state true) + 500 * Z.of_nat i) = false) /\
    ((k < 30)%nat ->
     (236000 <=? clock (sample_state true) + 500 * Z.of_nat k) = true) /\
    setupWiFi (fun t => 236000 <=? t) (sample_state true) =
      {| messagesReceived := messagesReceived (sample_state true);
         messagesForwarded := messagesForwarded (sample_state true);
         connected := connected (sample_state true);
         clock := clock (sample_state true) + 500 * Z.of_nat k;
         connects := connects (sample_state true);
         publishes := publishes (sample_state true);
         log := log (sample_state true) ++ repeat (Delay 500) k |}.
Proof.
  apply (setupWiFi_bounded (fun t => 236000 <=? t) (sample_state true)).
Defined.

End GatewayExtra.
